(** * project-blacki: the OpenRouter model cache and the model-selection hook

    A shallow embedding of [backend/src/agent/openrouter.py] (the TTL cache
    of the provider's model catalogue) and of the model-selection part of
    [backend/src/agent/callbacks.py] ([LoggingCallbacks.before_model] and
    its helpers), followed by the properties the specification states
    about them.

    Conventions of the embedding:
    - a Python [str] is a [string] whose characters are code points below
      256 (the Latin-1 range); [str.strip], [str.lower], [str.startswith]
      and the [in] operator are written out on that range;
    - values decoded by [json.loads] and values held by the session state
      are terms of [PyVal]; a [dict] is a [gmap string PyVal];
    - a reading of [time.monotonic()] and the stored timestamp are
      binary64 floats ([float] of the kernel), their difference is the
      rounded subtraction [PrimFloat.sub] and [>=] is [PrimFloat.leb], as
      in the interpreter;
    - the module globals of [openrouter.py], the logging output and the
      counters of the outside world form the record [World]; functions
      that touch them are state-passing functions that return either a
      value or a raised exception;
    - the outside world (environment variable, HTTP endpoint, monotonic
      clock, attribute store of the framework's request object) is the
      record [Env], a parameter of every function that reaches it. *)

From Corelib Require Import PrimFloat.
From Stdlib Require Import QArith Ascii.
From stdpp Require Import gmap strings list fin_maps.

Local Open Scope string_scope.
Local Open Scope list_scope.

(** ** Python strings *)

Module PyStr.

Definition code (c : ascii) : N := N_of_ascii c.

(** [str.isspace] on one character: the code points below 256 that
    Python treats as whitespace (TAB..CR, FS..US, SPACE, NEL, NBSP). *)
Definition isspace (c : ascii) : bool :=
  let n := code c in
  ((9 <=? n) && (n <=? 13) || (28 <=? n) && (n <=? 32)
   || (n =? 133) || (n =? 160))%N.

(** [str.lower] on one character: A-Z and the Latin-1 capitals
    (U+00C0..U+00DE without the multiplication sign U+00D7) move up by
    32, every other character is kept. *)
Definition lower_char (c : ascii) : ascii :=
  let n := code c in
  if ((65 <=? n) && (n <=? 90)
      || (192 <=? n) && (n <=? 222) && negb (n =? 215))%N
  then ascii_of_N (n + 32) else c.

Fixpoint lower (s : string) : string :=
  match s with
  | EmptyString => EmptyString
  | String c s' => String (lower_char c) (lower s')
  end.

(** [s.startswith(p)] *)
Definition startswith (s p : string) : bool := String.prefix p s.

(** [sub in s] for strings: [sub] occurs at some position of [s]. *)
Fixpoint contains (sub s : string) : bool :=
  String.prefix sub s
  || match s with
     | EmptyString => false
     | String _ s' => contains sub s'
     end.

Fixpoint lstrip (s : string) : string :=
  match s with
  | EmptyString => EmptyString
  | String c s' => if isspace c then lstrip s' else s
  end.

Fixpoint rstrip (s : string) : string :=
  match s with
  | EmptyString => EmptyString
  | String c s' =>
      match rstrip s' with
      | EmptyString => if isspace c then EmptyString else String c EmptyString
      | r => String c r
      end
  end.

(** [s.strip()]: the slice between the first and the last character
    that is not whitespace. *)
Definition strip (s : string) : string := rstrip (lstrip s).

(** Truth value of a string: [not s] holds for the empty string only. *)
Definition truthy (s : string) : bool :=
  match s with EmptyString => false | _ => true end.

(** Every character of [s] is whitespace. *)
Fixpoint all_space (s : string) : bool :=
  match s with
  | EmptyString => true
  | String c s' => isspace c && all_space s'
  end.

(** The character [c] occurs in [s]. *)
Fixpoint has_char (c : ascii) (s : string) : Prop :=
  match s with
  | EmptyString => False
  | String c' s' => c' = c \/ has_char c s'
  end.

Definition starts_nonspace (s : string) : bool :=
  match s with
  | EmptyString => false
  | String c _ => negb (isspace c)
  end.

Fixpoint ends_nonspace (s : string) : bool :=
  match s with
  | EmptyString => false
  | String c EmptyString => negb (isspace c)
  | String _ s' => ends_nonspace s'
  end.

(** [s] is not empty and neither starts nor ends with whitespace. *)
Definition trimmed (s : string) : bool := starts_nonspace s && ends_nonspace s.

(** [a] and [b] are the same letter up to ASCII case. *)
Definition same_letter (a b : ascii) : bool :=
  let lo c := let n := code c in
              if ((65 <=? n) && (n <=? 90))%N then (n + 32)%N else n in
  (lo a =? lo b)%N.

(** [p] is a prefix of [s] when ASCII case is ignored. *)
Fixpoint prefix_nocase (p s : string) : bool :=
  match p, s with
  | EmptyString, _ => true
  | String a p', String b s' => same_letter a b && prefix_nocase p' s'
  | String _ _, EmptyString => false
  end.

End PyStr.

(** ** Python values, exceptions and log records *)

(** The values [json.loads] can produce, which are also the values the
    session state may hold under a key.  A finite [float] is written as
    the rational it denotes. *)
#[warnings="-register-all"]
Inductive PyVal : Type :=
| PNone
| PBool (b : bool)
| PInt (z : Z)
| PFloat (q : Q)
| PStr (s : string)
| PList (l : list PyVal)
| PDict (d : gmap string PyVal).

(** [type(v).__name__] *)
Definition type_name (v : PyVal) : string :=
  match v with
  | PNone => "NoneType"
  | PBool _ => "bool"
  | PInt _ => "int"
  | PFloat _ => "float"
  | PStr _ => "str"
  | PList _ => "list"
  | PDict _ => "dict"
  end.

(** [isinstance(v, str)] *)
Definition is_str (v : PyVal) : bool :=
  match v with PStr _ => true | _ => false end.

(** A raised exception: [type(e).__name__] and [str(e)]. *)
Record PyExc : Type := mkExc { exc_type : string; exc_msg : string }.

Inductive Result (A : Type) : Type :=
| Ok (a : A)
| Raise (e : PyExc).
Arguments Ok {A} a.
Arguments Raise {A} e.

Definition AttributeError (v : PyVal) (attr : string) : PyExc :=
  mkExc "AttributeError"
        ("'" +:+ type_name v +:+ "' object has no attribute '" +:+ attr +:+ "'").

(** [m.get(key, default)]: defined on a [dict] only; every other JSON value
    has no attribute [get]. *)
Definition py_get_default (m : PyVal) (key : string) (dflt : PyVal)
  : Result PyVal :=
  match m with
  | PDict d => Ok (default dflt (d !! key))
  | _ => Raise (AttributeError m "get")
  end.

(** [m.get(key)] *)
Definition py_get (m : PyVal) (key : string) : Result PyVal :=
  py_get_default m key PNone.

Inductive Level : Type := DEBUG | INFO | WARNING.

(** One constructor per logging call of the two modules; the arguments are
    the values interpolated into the call's message. *)
Inductive LogMsg : Type :=
| MsgNoApiKey
    (* "OPENROUTER_API_KEY not set; cannot fetch models" *)
| MsgFetchFailed (e : PyExc)
    (* "Failed to fetch OpenRouter models: %s: %s" *)
| MsgBeforeLLM (agent_name invocation_id : string)
    (* "*** Before LLM call for agent '..' with invocation_id '..' ***" *)
| MsgStateKeys (keys : gset string)
    (* "State keys: .." *)
| MsgNoSelectedModel (request_model : string)
    (* "No selected model in state; using request model: %s" *)
| MsgListUnavailable (selected_model : string)
    (* "Model list unavailable; allowing provider-prefixed model: %s" *)
| MsgNotAllowed (selected_model : string)
    (* "Selected model '%s' not in allowed list; using default model" *)
| MsgRequested (selected_model : string)
    (* "Requested model from state: %s" *)
| MsgApplied (request_model : string)
    (* "Applied model for this request: %s" *)
| MsgApplyFailed (selected_model : string) (e : PyExc)
    (* "Failed to apply selected model '%s': %s: %s" *)
| MsgUserContent (dump : PyVal)
    (* "User Content: .." *)
| MsgContentCount (n : nat)
    (* "LLM request contains .. messages:" *)
| MsgContent (i : nat) (dump : PyVal)
    (* "Content ..: .." *).

Record LogRecord : Type := mkLog { log_level : Level; log_msg : LogMsg }.

(** ** Results and their sequencing *)

Definition rbind {A B : Type} (r : Result A) (k : A -> Result B) : Result B :=
  match r with
  | Ok a => k a
  | Raise e => Raise e
  end.

(** A comprehension [... for m in l if ...]: [f m] is [Ok None] when the
    condition drops [m], [Ok (Some b)] when it yields the element [b], and
    the first exception raised ends the whole comprehension. *)
Fixpoint comprehension {B : Type} (f : PyVal -> Result (option B))
  (l : list PyVal) : Result (list B) :=
  match l with
  | [] => Ok []
  | m :: l' =>
      rbind (f m) (fun o =>
      rbind (comprehension f l') (fun r =>
      Ok (match o with Some b => b :: r | None => r end)))
  end.

(** ** The state of [openrouter.py] and of the outside world *)

(** One entry of the listing built by [_refresh_cache]:
    [{"id": .., "name": .., "context_length": ..}]. *)
Record UiModel : Type := mkUiModel {
  um_id : PyVal;
  um_name : PyVal;
  um_context_length : PyVal
}.

(** The dict stored in [_cache]: [{"ids": ids, "models": simplified}]. *)
Record Snapshot : Type := mkSnapshot {
  snap_ids : gset string;
  snap_models : list UiModel
}.

Record World : Type := mkWorld {
  cache : option Snapshot;        (* _cache *)
  cache_updated_at : float;       (* _cache_updated_at *)
  fetch_calls : nat;              (* calls of fetch_models made so far *)
  clock_reads : nat;              (* calls of time.monotonic made so far *)
  log : list LogRecord            (* records emitted so far, oldest first *)
}.

(** The module as loaded: [_cache = None], [_cache_updated_at = 0.0]. *)
Definition initial_world : World := mkWorld None 0%float 0 0 [].

Definition CACHE_TTL_SECONDS : float := 60%float.

(** The request object of the framework: [model] holds a [str] or some
    other object, of which only what [_format_model_for_log] looks at is
    kept (its [model] attribute when that is a [str], and its [repr]). *)
Inductive ModelValue : Type :=
| ModelStr (s : string)
| ModelObj (model_attr : option string) (obj_repr : string).

(** A content object, seen through [model_dump(exclude_none=True,
    mode="json")]. *)
Record Content : Type := mkContent { model_dump : PyVal }.

Record LlmRequest : Type := mkRequest {
  model : ModelValue;
  contents : list Content
}.

Record CallbackContext : Type := mkContext {
  agent_name : string;
  invocation_id : string;
  state : gmap string PyVal;      (* callback_context.state.to_dict() *)
  user_content : option Content
}.

(** The outside world.  [environ_api_key n] is the value of the
    environment variable at the [n]-th call of [fetch_models];
    [http_get_json n key] is the outcome of the [try] body of that call
    (request, read, decode, [json.loads]): the decoded document, or the
    exception raised; [monotonic_clock k] is the [k]-th reading of
    [time.monotonic()]; [setattr_raises req v] tells whether storing [v]
    in the [model] attribute of [req] raises. *)
Record Env : Type := mkEnv {
  environ_api_key : nat -> option string;
  http_get_json : nat -> string -> Result PyVal;
  monotonic_clock : nat -> float;
  setattr_raises : LlmRequest -> string -> option PyExc
}.

(** Computations over the world: the result (or the exception raised) and
    the world left behind. *)
Definition M (A : Type) : Type := World -> Result A * World.

Definition ret {A : Type} (a : A) : M A := fun w => (Ok a, w).

Definition raise {A : Type} (e : PyExc) : M A := fun w => (Raise e, w).

Definition lift {A : Type} (r : Result A) : M A := fun w => (r, w).

Definition bind {A B : Type} (m : M A) (k : A -> M B) : M B :=
  fun w =>
    match m w with
    | (Ok a, w') => k a w'
    | (Raise e, w') => (Raise e, w')
    end.

Notation "'let!' x := c 'in' k" := (bind c (fun x => k))
  (at level 10, x name, c at level 100, k at level 200, only parsing).
Notation "'do!' c 'in' k" := (bind c (fun _ => k))
  (at level 10, c at level 100, k at level 200, only parsing).

(** [logger.<level>(msg)] *)
Definition emit (lvl : Level) (msg : LogMsg) : M unit :=
  fun w => (Ok tt, mkWorld (cache w) (cache_updated_at w) (fetch_calls w)
                           (clock_reads w) (log w ++ [mkLog lvl msg])).

Definition emit_all (rs : list LogRecord) : M unit :=
  fun w => (Ok tt, mkWorld (cache w) (cache_updated_at w) (fetch_calls w)
                           (clock_reads w) (log w ++ rs)).

(** ** openrouter.py *)

Section Openrouter.

Variable env : Env.

(** [time.monotonic()] *)
Definition monotonic : M float :=
  fun w => (Ok (monotonic_clock env (clock_reads w)),
            mkWorld (cache w) (cache_updated_at w) (fetch_calls w)
                    (S (clock_reads w)) (log w)).

(** [_get_api_key()], called by the [n]-th [fetch_models]. *)
Definition _get_api_key (n : nat) : option string := environ_api_key env n.

(** Entry of [fetch_models]: the call is counted. *)
Definition enter_fetch : M nat :=
  fun w => (Ok (fetch_calls w),
            mkWorld (cache w) (cache_updated_at w) (S (fetch_calls w))
                    (clock_reads w) (log w)).

(** What follows the [try] statement of [fetch_models]:
    [raw_models = data.get("data")] and the [isinstance(.., list)] test. *)
Definition raw_models_of (data : PyVal) : Result (list PyVal) :=
  rbind (py_get data "data") (fun raw_models =>
  match raw_models with
  | PList l => Ok l
  | _ => Ok []
  end).

Definition fetch_models : M (list PyVal) :=
  let! n := enter_fetch in
  match _get_api_key n with
  | None | Some EmptyString =>
      do! emit WARNING MsgNoApiKey in
      ret []
  | Some api_key =>
      match http_get_json env n api_key with
      | Raise e =>
          do! emit WARNING (MsgFetchFailed e) in
          ret []
      | Ok data => lift (raw_models_of data)
      end
  end.

(** Condition and element of the set comprehension of [_refresh_cache]:
    [m.get("id")] when it is a [str]. *)
Definition id_of_record (m : PyVal) : Result (option string) :=
  rbind (py_get m "id") (fun v =>
  match v with
  | PStr s => Ok (Some s)
  | _ => Ok None
  end).

(** Condition and element of the list comprehension of [_refresh_cache]. *)
Definition simplify_record (m : PyVal) : Result (option UiModel) :=
  rbind (py_get m "id") (fun v =>
  if is_str v then
    rbind (py_get m "id") (fun i =>
    rbind (py_get_default m "id" (PStr "unknown")) (fun d =>
    rbind (py_get_default m "name" d) (fun n =>
    rbind (py_get m "context_length") (fun c =>
    Ok (Some (mkUiModel i n c))))))
  else Ok None).

Definition store_cache (s : Snapshot) : M unit :=
  fun w => (Ok tt, mkWorld (Some s) (cache_updated_at w) (fetch_calls w)
                           (clock_reads w) (log w)).

Definition store_cache_updated_at (t : float) : M unit :=
  fun w => (Ok tt, mkWorld (cache w) t (fetch_calls w) (clock_reads w) (log w)).

Definition _refresh_cache : M unit :=
  let! models := fetch_models in
  let! ids := lift (comprehension id_of_record models) in
  let! simplified := lift (comprehension simplify_record models) in
  do! store_cache (mkSnapshot (list_to_set ids) simplified) in
  let! t := monotonic in
  store_cache_updated_at t.

(** [_cache is None or (time.monotonic() - _cache_updated_at) >=
    CACHE_TTL_SECONDS]; the clock is read only when a snapshot exists. *)
Definition cache_expired : M bool :=
  fun w =>
    match cache w with
    | None => (Ok true, w)
    | Some _ =>
        bind monotonic (fun t =>
        ret (PrimFloat.leb CACHE_TTL_SECONDS
                           (PrimFloat.sub t (cache_updated_at w)))) w
    end.

(** [_cache[key]], with [_cache] read at that moment. *)
Definition read_cache {A : Type} (field : Snapshot -> A) : M A :=
  fun w =>
    match cache w with
    | Some s => (Ok (field s), w)
    | None => (Raise (mkExc "TypeError"
                            "'NoneType' object is not subscriptable"), w)
    end.

(** The body of both accessors, run with [_cache_lock] held. *)
Definition refresh_if_expired : M unit :=
  let! expired := cache_expired in
  if expired then _refresh_cache else ret tt.

Definition get_cached_model_ids : M (gset string) :=
  do! refresh_if_expired in
  read_cache snap_ids.

Definition get_models_for_ui : M (list UiModel) :=
  do! refresh_if_expired in
  read_cache snap_models.

End Openrouter.

(** ** callbacks.py *)

Definition SELECTED_MODEL_STATE_KEY : string := "selectedModel".

Definition _read_selected_model_from_state (callback_context : CallbackContext)
  : option string :=
  match state callback_context !! SELECTED_MODEL_STATE_KEY with
  | Some (PStr selected_model) =>
      let normalized_selected_model := PyStr.strip selected_model in
      if PyStr.truthy normalized_selected_model
      then Some normalized_selected_model
      else None
  | _ => None
  end.

(** The value of the local [model_for_request] of
    [_apply_selected_model_to_request] at the assignment. *)
Definition model_for_request (selected_model : string) : string :=
  if negb (PyStr.startswith (PyStr.lower selected_model) "openrouter/")
  then "openrouter/" +:+ selected_model
  else selected_model.

Definition _format_model_for_log (model_value : ModelValue) : string :=
  match model_value with
  | ModelStr s => s
  | ModelObj (Some lite_llm_model_name) _ => lite_llm_model_name
  | ModelObj None r => r
  end.

(** The [user_content] and [contents] records that end [before_model]. *)
Definition content_records (callback_context : CallbackContext)
  (llm_request : LlmRequest) : list LogRecord :=
  match user_content callback_context with
  | Some c => [mkLog DEBUG (MsgUserContent (model_dump c))]
  | None => []
  end
  ++ mkLog DEBUG (MsgContentCount (length (contents llm_request)))
  :: imap (fun i c => mkLog DEBUG (MsgContent (S i) (model_dump c)))
          (contents llm_request).

Section Callbacks.

Variable env : Env.

(** [llm_request.model = v]: the attribute store either raises and leaves
    the object as it was, or replaces the field. *)
Definition setattr_model (llm_request : LlmRequest) (v : string)
  : Result LlmRequest :=
  match setattr_raises env llm_request v with
  | Some e => Raise e
  | None => Ok (mkRequest (ModelStr v) (contents llm_request))
  end.

Definition _apply_selected_model_to_request (llm_request : LlmRequest)
  (selected_model : string) : Result LlmRequest :=
  setattr_model llm_request (model_for_request selected_model).

Definition _get_allowed_model_ids : M (gset string) :=
  get_cached_model_ids env.

(** Lines 174-181: [is_allowed] after the membership test and the
    empty-list fallback, with the record that fallback emits. *)
Definition check_allowed (selected_model : string) (allowed_ids : gset string)
  : M bool :=
  let is_allowed := bool_decide (selected_model ∈ allowed_ids) in
  if negb is_allowed && bool_decide (allowed_ids = ∅) then
    let is_allowed := PyStr.contains "/" selected_model in
    do! (if is_allowed
         then emit INFO (MsgListUnavailable selected_model)
         else ret tt) in
    ret is_allowed
  else ret is_allowed.

(** [before_model]; the request object is mutated in place by the source,
    so the value returned here is that object as the hook leaves it (the
    Python function itself returns [None]). *)
Definition before_model (callback_context : CallbackContext)
  (llm_request : LlmRequest) : M LlmRequest :=
  do! emit INFO (MsgBeforeLLM (agent_name callback_context)
                              (invocation_id callback_context)) in
  do! emit DEBUG (MsgStateKeys (dom (state callback_context))) in
  let! llm_request :=
    match _read_selected_model_from_state callback_context with
    | None =>
        do! emit INFO (MsgNoSelectedModel
                         (_format_model_for_log (model llm_request))) in
        ret llm_request
    | Some selected_model =>
        let! allowed_ids := _get_allowed_model_ids in
        let! is_allowed := check_allowed selected_model allowed_ids in
        if negb is_allowed then
          do! emit WARNING (MsgNotAllowed selected_model) in
          ret llm_request
        else
          do! emit INFO (MsgRequested selected_model) in
          match _apply_selected_model_to_request llm_request selected_model with
          | Ok llm_request' =>
              do! emit INFO (MsgApplied
                               (_format_model_for_log (model llm_request'))) in
              ret llm_request'
          | Raise e =>
              do! emit WARNING (MsgApplyFailed selected_model e) in
              ret llm_request
          end
    end in
  do! emit_all (content_records callback_context llm_request) in
  ret llm_request.

End Callbacks.

(** ** Vocabulary of the properties *)

Definition set_log (l : list LogRecord) (w : World) : World :=
  mkWorld (cache w) (cache_updated_at w) (fetch_calls w) (clock_reads w) l.

(** The records emitted between the worlds [w] and [w']. *)
Definition emitted (w w' : World) : list LogRecord :=
  drop (length (log w)) (log w').

(** A computation that does not read the log, removes no record from it
    and adds only records that satisfy [P]. *)
Definition log_blind {A : Type} (P : LogRecord -> Prop) (m : M A) : Prop :=
  forall w l,
    m (set_log l w)
    = (fst (m (set_log [] w)),
       set_log (l ++ log (snd (m (set_log [] w)))) (snd (m (set_log [] w))))
    /\ Forall P (log (snd (m (set_log [] w)))).

(** The hook honoured the model [s] read from the state: it announced it
    and went on to apply it (decision source "requested"). *)
Definition accepted (s : string) (w w' : World) : Prop :=
  mkLog INFO (MsgRequested s) ∈ emitted w w'.

(** The hook refused the model [s] and recorded the warning (decision
    source "fallback"). *)
Definition rejected (s : string) (w w' : World) : Prop :=
  mkLog WARNING (MsgNotAllowed s) ∈ emitted w w'.

(** [is_allowed] as [check_allowed] leaves it. *)
Definition is_allowed_value (s : string) (ids : gset string) : bool :=
  bool_decide (s ∈ ids) || bool_decide (ids = ∅) && PyStr.contains "/" s.

(** The records [get_cached_model_ids] and [get_models_for_ui] can emit:
    the two warnings of [fetch_models]. *)
Definition cache_record (r : LogRecord) : Prop :=
  log_level r = WARNING
  /\ (log_msg r = MsgNoApiKey \/ exists e, log_msg r = MsgFetchFailed e).

(** The two records that open [before_model]. *)
Definition prologue_records (ctx : CallbackContext) : list LogRecord :=
  [mkLog INFO (MsgBeforeLLM (agent_name ctx) (invocation_id ctx));
   mkLog DEBUG (MsgStateKeys (dom (state ctx)))].

(** Lines 174-201 of [callbacks.py] in one piece, once the allow-list
    [ids] is known: the request as the hook leaves it and the records
    emitted on the way. *)
Definition selection_outcome (env : Env) (req : LlmRequest) (s : string)
  (ids : gset string) : LlmRequest * list LogRecord :=
  if is_allowed_value s ids then
    let unavailable :=
      if bool_decide (s ∈ ids) then []
      else [mkLog INFO (MsgListUnavailable s)] in
    match setattr_raises env req (model_for_request s) with
    | None =>
        (mkRequest (ModelStr (model_for_request s)) (contents req),
         unavailable ++ [mkLog INFO (MsgRequested s);
                         mkLog INFO (MsgApplied (model_for_request s))])
    | Some e =>
        (req,
         unavailable ++ [mkLog INFO (MsgRequested s);
                         mkLog WARNING (MsgApplyFailed s e)])
    end
  else (req, [mkLog WARNING (MsgNotAllowed s)]).

(** The records of the selection step, as opposed to those of the
    prologue, of the cache and of the content dump. *)
Definition selection_record (r : LogRecord) : Prop :=
  match log_msg r with
  | MsgListUnavailable _ | MsgNotAllowed _ | MsgRequested _
  | MsgApplied _ | MsgApplyFailed _ _ => True
  | _ => False
  end.

(** The two accessors of the cache, and what each hands out of a
    snapshot. *)
Inductive Accessor : Type := GetIds | GetModels.

Inductive Answer : Type :=
| AnsIds (ids : gset string)
| AnsModels (models : list UiModel).

Definition view (a : Accessor) (s : Snapshot) : Answer :=
  match a with
  | GetIds => AnsIds (snap_ids s)
  | GetModels => AnsModels (snap_models s)
  end.

Definition call (env : Env) (a : Accessor) : M Answer :=
  match a with
  | GetIds => let! r := get_cached_model_ids env in ret (AnsIds r)
  | GetModels => let! r := get_models_for_ui env in ret (AnsModels r)
  end.

(** The time elapsed from the timestamp [u] to the reading [t], as the
    code measures it: the binary64 difference of the two. *)
Definition elapsed (t u : float) : float := PrimFloat.sub t u.

(** The reading [t] falls within the TTL of the timestamp [u]: the elapsed
    time is not [>= CACHE_TTL_SECONDS]. *)
Definition within_ttl (t u : float) : Prop :=
  PrimFloat.leb CACHE_TTL_SECONDS (elapsed t u) = false.

(** The age test of the accessors, as the specification words it: no
    snapshot, or at least [CACHE_TTL_SECONDS] elapsed since the last
    refresh at the next reading of the clock. *)
Definition stale (env : Env) (w : World) : Prop :=
  cache w = None
  \/ PrimFloat.leb CACHE_TTL_SECONDS
       (elapsed (monotonic_clock env (clock_reads w)) (cache_updated_at w))
     = true.

(** The id set of a snapshot is the set of the ["id"] values of its
    listing. *)
Definition consistent (s : Snapshot) : Prop :=
  forall v : PyVal,
    v ∈ um_id <$> snap_models s <-> exists i, v = PStr i /\ i ∈ snap_ids s.

Definition cache_consistent (w : World) : Prop :=
  forall s, cache w = Some s -> consistent s.

(** The outcomes of the [n]-th fetch that [fetch_models] and
    [_refresh_cache] are prepared for: no credential, an exception raised
    by the request or the decoding, or a decoded JSON object whose
    ["data"], when it is a list, is a list of JSON objects. *)
Definition handled_response (env : Env) (n : nat) : Prop :=
  match environ_api_key env n with
  | None | Some EmptyString => True
  | Some api_key =>
      match http_get_json env n api_key with
      | Raise _ => True
      | Ok (PDict d) =>
          match d !! "data" with
          | Some (PList l) => Forall (fun m => exists d', m = PDict d') l
          | _ => True
          end
      | Ok _ => False
      end
  end.

(** The worlds the program can be in: the freshly loaded module, then any
    number of calls of the accessors and of the hook, whatever they
    return. *)
Inductive reachable (env : Env) : World -> Prop :=
| reach_initial : reachable env initial_world
| reach_call w a :
    reachable env w -> reachable env (snd (call env a w))
| reach_before_model w ctx req :
    reachable env w -> reachable env (snd (before_model env ctx req w)).

(** ** Sample worlds and requests *)

(** A clock that reads 1000.0, 1001.0, 1002.0, ... *)
Fixpoint sample_clock (k : nat) : float :=
  match k with
  | 0 => 1000%float
  | S k' => PrimFloat.add (sample_clock k') 1%float
  end.

(** No credential in the environment: every fetch is short-circuited. *)
Definition env_no_key : Env :=
  mkEnv (fun _ => None)
        (fun _ _ => Raise (mkExc "URLError" "unreachable"))
        sample_clock
        (fun _ _ => None).

(** The document [{"data": [{"id": "vendor/model-x", "name": "X",
    "context_length": 8192}, {"id": "foo"}, {"id": 5}]}]. *)
Definition sample_catalog : PyVal :=
  PDict {[ "data" :=
    PList [ PDict (<["id" := PStr "vendor/model-x"]>
                   (<["name" := PStr "X"]>
                   {[ "context_length" := PInt 8192 ]}));
            PDict {[ "id" := PStr "foo" ]};
            PDict {[ "id" := PInt 5 ]} ] ]}.

Definition env_catalog : Env :=
  mkEnv (fun _ => Some "sk-test")
        (fun _ _ => Ok sample_catalog)
        sample_clock
        (fun _ _ => None).

(** The same catalogue, with a request object that refuses the store. *)
Definition env_frozen_request : Env :=
  mkEnv (fun _ => Some "sk-test")
        (fun _ _ => Ok sample_catalog)
        sample_clock
        (fun _ _ => Some (mkExc "ValueError" "frozen instance")).

(** The endpoint answers with the JSON document [[]]. *)
Definition env_array_document : Env :=
  mkEnv (fun _ => Some "sk-test")
        (fun _ _ => Ok (PList []))
        sample_clock
        (fun _ _ => None).

(** The endpoint answers with the JSON document [{"data": [1]}]. *)
Definition env_scalar_record : Env :=
  mkEnv (fun _ => Some "sk-test")
        (fun _ _ => Ok (PDict {[ "data" := PList [PInt 1] ]}))
        sample_clock
        (fun _ _ => None).

Definition sample_request : LlmRequest :=
  mkRequest (ModelStr "gemini-default") [mkContent (PStr "hello")].

Definition sample_context (selected : option PyVal) : CallbackContext :=
  mkContext "root_agent" "inv-1"
            (match selected with
             | Some v => {[ SELECTED_MODEL_STATE_KEY := v ]}
             | None => ∅
             end)
            None.

Definition sample_ids : gset string := list_to_set ["vendor/model-x"; "foo"].

(** The worlds left by a first call of [get_cached_model_ids]. *)
Definition world_no_key : World :=
  snd (get_cached_model_ids env_no_key initial_world).

Definition world_catalog : World :=
  snd (get_cached_model_ids env_catalog initial_world).

Definition world_frozen : World :=
  snd (get_cached_model_ids env_frozen_request initial_world).

(** ** Summaries of the cache, for the further properties *)

(** The snapshot built from an empty fetch result. *)
Definition empty_snapshot : Snapshot := mkSnapshot ∅ [].

(** The value of the test of [cache_expired] at the world [w]. *)
Definition expired_b (env : Env) (w : World) : bool :=
  match cache w with
  | None => true
  | Some _ =>
      PrimFloat.leb CACHE_TTL_SECONDS
        (PrimFloat.sub (monotonic_clock env (clock_reads w))
                       (cache_updated_at w))
  end.

(** The world after that test: the clock has been read once when a
    snapshot exists. *)
Definition checked (w : World) : World :=
  match cache w with
  | None => w
  | Some _ => mkWorld (cache w) (cache_updated_at w) (fetch_calls w)
                      (S (clock_reads w)) (log w)
  end.

(** The [n]-th call of [fetch_models] in one piece: what it returns and
    the records it emits. *)
Definition fetch_result (env : Env) (n : nat)
  : Result (list PyVal) * list LogRecord :=
  match environ_api_key env n with
  | None | Some EmptyString => (Ok [], [mkLog WARNING MsgNoApiKey])
  | Some api_key =>
      match http_get_json env n api_key with
      | Raise e => (Ok [], [mkLog WARNING (MsgFetchFailed e)])
      | Ok data => (raw_models_of data, [])
      end
  end.

(** The snapshot [_refresh_cache] builds from the [n]-th fetch, or the
    exception that ends it. *)
Definition refresh_result (env : Env) (n : nat) : Result Snapshot :=
  rbind (fst (fetch_result env n)) (fun models =>
  rbind (comprehension id_of_record models) (fun ids =>
  rbind (comprehension simplify_record models) (fun simplified =>
  Ok (mkSnapshot (list_to_set ids) simplified)))).

(** What a raw record contributes to the id set and to the listing. *)
Definition record_id (d : gmap string PyVal) : option string :=
  match d !! "id" with
  | Some (PStr s) => Some s
  | _ => None
  end.

Definition listing_entry (d : gmap string PyVal) : option UiModel :=
  match d !! "id" with
  | Some (PStr s) =>
      Some (mkUiModel (PStr s)
                      (default (PStr s) (d !! "name"))
                      (default PNone (d !! "context_length")))
  | _ => None
  end.

(** The fields of the world other than the log. *)
Definition same_cache_state (w w' : World) : Prop :=
  cache w' = cache w /\ cache_updated_at w' = cache_updated_at w
  /\ fetch_calls w' = fetch_calls w /\ clock_reads w' = clock_reads w.

(** An id that does not carry the provider tag yet. *)
Definition untagged (s : string) : Prop :=
  PyStr.prefix_nocase "openrouter/" s = false.

(** Callers served one after the other, each by its own call of an
    accessor; an exception ends that caller's call only. *)
Fixpoint run_calls (env : Env) (l : list Accessor) (w : World)
  : list (Result Answer) * World :=
  match l with
  | [] => ([], w)
  | a :: l' =>
      let (r, w1) := call env a w in
      let (rs, w2) := run_calls env l' w1 in
      (r :: rs, w2)
  end.

(** ** Further sample worlds *)

(** A credential is set and the request fails. *)
Definition env_unreachable : Env :=
  mkEnv (fun _ => Some "sk-test")
        (fun _ _ => Raise (mkExc "URLError" "unreachable"))
        sample_clock
        (fun _ _ => None).

(** The endpoint answers with the JSON document [{"error": "denied"}]. *)
Definition env_no_data : Env :=
  mkEnv (fun _ => Some "sk-test")
        (fun _ _ => Ok (PDict {[ "error" := PStr "denied" ]}))
        sample_clock
        (fun _ _ => None).

(** The raw records of [sample_catalog]. *)
Definition sample_records : list (gmap string PyVal) :=
  [ <["id" := PStr "vendor/model-x"]>
      (<["name" := PStr "X"]> {[ "context_length" := PInt 8192 ]});
    {[ "id" := PStr "foo" ]};
    {[ "id" := PInt 5 ]} ].

(** The JSON object of [sample_catalog] and the snapshot built from it. *)
Definition sample_doc : gmap string PyVal :=
  {[ "data" := PList (PDict <$> sample_records) ]}.

Definition sample_snapshot : Snapshot :=
  mkSnapshot (list_to_set (omap record_id sample_records))
             (omap listing_entry sample_records).

(** A snapshot stamped at 0.3 and a clock that reads 60.3 (the nearest
    binary64 values). *)
Definition env_boundary : Env :=
  mkEnv (fun _ => None)
        (fun _ _ => Raise (mkExc "URLError" "unreachable"))
        (fun _ => 0x1.e266666666666p+5%float)
        (fun _ _ => None).

Definition world_boundary : World :=
  mkWorld (Some empty_snapshot) 0x1.3333333333333p-2%float 1 0 [].

(** The snapshot of [world_catalog], read 100 seconds later. *)
Definition world_expired : World :=
  mkWorld (cache world_catalog) (cache_updated_at world_catalog)
          (fetch_calls world_catalog) 100 (log world_catalog).

(** ** Facts about the string operations *)

Lemma lstrip_all_space (s : string) :
  PyStr.all_space s = true -> PyStr.lstrip s = "".
Proof.
  induction s as [|c s IH]; simpl; [done|].
  intros [Hc Hs]%andb_prop. rewrite Hc. auto.
Qed.

Lemma rstrip_all_space (s : string) :
  PyStr.all_space s = true -> PyStr.rstrip s = "".
Proof.
  induction s as [|c s IH]; simpl; [done|].
  intros [Hc Hs]%andb_prop. rewrite (IH Hs), Hc. done.
Qed.

Lemma strip_all_space (s : string) :
  PyStr.all_space s = true -> PyStr.strip s = "".
Proof.
  intros H. unfold PyStr.strip. rewrite (lstrip_all_space _ H). done.
Qed.

Lemma lstrip_app_space (l s : string) :
  PyStr.all_space l = true -> PyStr.lstrip (l +:+ s) = PyStr.lstrip s.
Proof.
  induction l as [|c l IH]; simpl; [done|].
  intros [Hc Hl]%andb_prop. rewrite Hc. auto.
Qed.

Lemma lstrip_starts_nonspace (s : string) :
  PyStr.starts_nonspace s = true -> PyStr.lstrip s = s.
Proof.
  destruct s as [|c s]; simpl; [done|].
  intros H%negb_true_iff. by rewrite H.
Qed.

Lemma rstrip_cons (c : ascii) (s : string) :
  PyStr.rstrip (String c s)
  = match PyStr.rstrip s with
    | EmptyString =>
        if PyStr.isspace c then EmptyString else String c EmptyString
    | r => String c r
    end.
Proof. reflexivity. Qed.

Lemma rstrip_app_space (core r : string) :
  PyStr.ends_nonspace core = true -> PyStr.all_space r = true ->
  PyStr.rstrip (core +:+ r) = core.
Proof.
  intros Hcore Hr. induction core as [|c core IH]; [done|].
  change (String c core +:+ r) with (String c (core +:+ r)).
  rewrite rstrip_cons. destruct core as [|c' core].
  - change ("" +:+ r) with r. rewrite (rstrip_all_space _ Hr).
    cbn in Hcore. apply negb_true_iff in Hcore. by rewrite Hcore.
  - rewrite IH; [done|]. exact Hcore.
Qed.

(** [strip] removes exactly the surrounding whitespace. *)
Lemma strip_surrounded (l core r : string) :
  PyStr.all_space l = true -> PyStr.all_space r = true ->
  PyStr.trimmed core = true ->
  PyStr.strip (l +:+ core +:+ r) = core.
Proof.
  intros Hl Hr [Hs He]%andb_prop. unfold PyStr.strip.
  rewrite (lstrip_app_space _ _ Hl).
  rewrite lstrip_starts_nonspace.
  - by apply rstrip_app_space.
  - destruct core; [done|]. exact Hs.
Qed.

Lemma contains_cons (sub : string) (c : ascii) (s : string) :
  PyStr.contains sub (String c s)
  = String.prefix sub (String c s) || PyStr.contains sub s.
Proof. reflexivity. Qed.

Lemma prefix_nil (s : string) : String.prefix "" s = true.
Proof. by destruct s. Qed.

Lemma prefix_cons (a : ascii) (p : string) (c : ascii) (s : string) :
  String.prefix (String a p) (String c s)
  = if ascii_dec a c then String.prefix p s else false.
Proof. reflexivity. Qed.

Lemma prefix_one_char (a c : ascii) (s : string) :
  String.prefix (String a "") (String c s)
  = if ascii_dec a c then true else false.
Proof.
  rewrite prefix_cons. destruct (ascii_dec a c); [apply prefix_nil|done].
Qed.

Lemma contains_slash (s : string) :
  PyStr.contains "/" s = true <-> PyStr.has_char "/"%char s.
Proof.
  induction s as [|c s IH]; [split; [done|intros []]|].
  rewrite contains_cons, prefix_one_char.
  change (PyStr.has_char "/"%char (String c s))
    with (c = "/"%char \/ PyStr.has_char "/"%char s).
  destruct (ascii_dec "/" c) as [<-|Hne].
  - split; [by left|done].
  - rewrite orb_false_l, IH. split; [by right|].
    intros [Heq|H]; [by subst|done].
Qed.

Example strip_foo : PyStr.strip "  foo  " = "foo".
Proof. reflexivity. Qed.

(** ** The wire format of a model id *)

Lemma prefix_lower_nocase (p s : string) :
  (forall x c, PyStr.has_char x p ->
     (if ascii_dec x (PyStr.lower_char c) then true else false)
     = PyStr.same_letter x c) ->
  String.prefix p (PyStr.lower s) = PyStr.prefix_nocase p s.
Proof.
  revert s. induction p as [|a p IH]; intros s Hp.
  - apply prefix_nil.
  - destruct s as [|b s]; [done|].
    change (PyStr.lower (String b s))
      with (String (PyStr.lower_char b) (PyStr.lower s)).
    rewrite prefix_cons.
    change (PyStr.prefix_nocase (String a p) (String b s))
      with (PyStr.same_letter a b && PyStr.prefix_nocase p s).
    rewrite <- (Hp a b) by (by left).
    destruct (ascii_dec a (PyStr.lower_char b)); [|done].
    apply IH. intros x c Hx. apply Hp. by right.
Qed.

(** No character other than a letter of the tag or its ASCII capital is
    lowered to a letter of the tag. *)
Lemma openrouter_letters (x c : ascii) :
  PyStr.has_char x "openrouter/" ->
  (if ascii_dec x (PyStr.lower_char c) then true else false)
  = PyStr.same_letter x c.
Proof.
  intros H. cbn in H.
  repeat (destruct H as [<-|H];
          [destruct c as [[] [] [] [] [] [] [] []]; vm_compute; reflexivity|]).
  destruct H.
Qed.

Lemma startswith_openrouter (s : string) :
  PyStr.startswith (PyStr.lower s) "openrouter/"
  = PyStr.prefix_nocase "openrouter/" s.
Proof. apply prefix_lower_nocase, openrouter_letters. Qed.

Lemma prefix_nocase_tagged (s : string) :
  PyStr.prefix_nocase "openrouter/" ("openrouter/" +:+ s) = true.
Proof. reflexivity. Qed.

(** C5: the wire-format transformation leaves an id alone when it starts
    with "openrouter/" up to case and prepends that tag once otherwise;
    applying it twice is the same as applying it once. *)
Theorem C5_model_for_request (s : string) :
  model_for_request s
  = (if PyStr.prefix_nocase "openrouter/" s then s else "openrouter/" +:+ s)
  /\ model_for_request (model_for_request s) = model_for_request s.
Proof.
  assert (Hdef : forall t, model_for_request t
    = if PyStr.prefix_nocase "openrouter/" t then t else "openrouter/" +:+ t).
  { intros t. unfold model_for_request. rewrite startswith_openrouter.
    by destruct (PyStr.prefix_nocase "openrouter/" t). }
  split; [apply Hdef|].
  rewrite (Hdef s). destruct (PyStr.prefix_nocase "openrouter/" s) eqn:Hs.
  - by rewrite Hdef, Hs.
  - by rewrite Hdef, prefix_nocase_tagged.
Qed.

Example model_for_request_samples :
  model_for_request "openrouter/foo" = "openrouter/foo"
  /\ model_for_request "OpenRouter/foo" = "OpenRouter/foo"
  /\ model_for_request "foo" = "openrouter/foo".
Proof. by vm_compute. Qed.

(** ** The log is write-only *)

Lemma set_log_log (w : World) : set_log (log w) w = w.
Proof. by destruct w. Qed.

Lemma set_log_set_log (l l' : list LogRecord) (w : World) :
  set_log l (set_log l' w) = set_log l w.
Proof. reflexivity. Qed.

Section LogBlind.

Context {A B : Type} (P : LogRecord -> Prop).

Lemma log_blind_ret (a : A) : log_blind P (ret a).
Proof. intros w l. cbn. by rewrite app_nil_r. Qed.

Lemma log_blind_raise (e : PyExc) : log_blind P (@raise A e).
Proof. intros w l. cbn. by rewrite app_nil_r. Qed.

Lemma log_blind_lift (r : Result A) : log_blind P (lift r).
Proof. intros w l. cbn. by rewrite app_nil_r. Qed.

Lemma log_blind_bind (m : M A) (k : A -> M B) :
  log_blind P m -> (forall a, log_blind P (k a)) -> log_blind P (bind m k).
Proof.
  intros Hm Hk w l. unfold bind.
  destruct (Hm w l) as [-> Hd].
  destruct (m (set_log [] w)) as [[a|e] w'] eqn:Hrun; cbn [fst snd] in *.
  - destruct (Hk a w' (l ++ log w')) as [-> Hd1].
    destruct (Hk a w' (log w')) as [Hd2 _].
    rewrite set_log_log in Hd2. rewrite Hd2. cbn [fst snd log set_log].
    split; [by rewrite app_assoc|]. by apply Forall_app.
  - done.
Qed.

End LogBlind.

Lemma log_blind_emit (P : LogRecord -> Prop) (lvl : Level) (msg : LogMsg) :
  P (mkLog lvl msg) -> log_blind P (emit lvl msg).
Proof. intros HP w l. cbn. split; [done|]. by constructor. Qed.

(** What [log_blind] gives for a run from any world. *)
Lemma log_blind_run {A : Type} (P : LogRecord -> Prop) (m : M A)
  (w w' : World) (r : Result A) :
  log_blind P m -> m w = (r, w') ->
  exists d, log w' = log w ++ d /\ Forall P d
    /\ forall rs, m (set_log (log w ++ rs) w)
                  = (r, set_log (log w ++ rs ++ d) w').
Proof.
  intros Hm Hrun. destruct (Hm w (log w)) as [Heq Hd].
  rewrite set_log_log, Hrun in Heq. injection Heq as -> ->.
  eexists. split; [reflexivity|]. split; [exact Hd|].
  intros rs. destruct (Hm w (log w ++ rs)) as [-> _].
  by rewrite set_log_set_log, app_assoc.
Qed.

Lemma emitted_app (w w' : World) (d : list LogRecord) :
  log w' = log w ++ d -> emitted w w' = d.
Proof. intros H. unfold emitted. rewrite H. apply drop_app_length. Qed.

(** ** The cache *)

Section CacheFacts.

Variable env : Env.

Lemma log_blind_fetch_models : log_blind cache_record (fetch_models env).
Proof.
  unfold fetch_models. apply log_blind_bind.
  - intros w l. cbn. split; [by rewrite app_nil_r|constructor].
  - intros n. destruct (_get_api_key env n) as [[|c key]|].
    + apply log_blind_bind; [|intros; apply log_blind_ret].
      apply log_blind_emit. split; [done|by left].
    + destruct (http_get_json env n (String c key)) as [data|e].
      * apply log_blind_lift.
      * apply log_blind_bind; [|intros; apply log_blind_ret].
        apply log_blind_emit. split; [done|right; by eexists].
    + apply log_blind_bind; [|intros; apply log_blind_ret].
      apply log_blind_emit. split; [done|by left].
Qed.

Lemma log_blind_refresh_cache : log_blind cache_record (_refresh_cache env).
Proof.
  unfold _refresh_cache.
  apply log_blind_bind; [apply log_blind_fetch_models|intros models].
  apply log_blind_bind; [apply log_blind_lift|intros ids].
  apply log_blind_bind; [apply log_blind_lift|intros simplified].
  apply log_blind_bind; [|intros _; apply log_blind_bind; [|intros t]];
    intros w l; cbn; (split; [by rewrite app_nil_r|constructor]).
Qed.

Lemma log_blind_refresh_if_expired :
  log_blind cache_record (refresh_if_expired env).
Proof.
  unfold refresh_if_expired. apply log_blind_bind.
  - intros w l. unfold cache_expired. cbn.
    destruct (cache w); cbn; (split; [by rewrite app_nil_r|constructor]).
  - intros [|]; [apply log_blind_refresh_cache|apply log_blind_ret].
Qed.

Lemma log_blind_read_cache {A : Type} (field : Snapshot -> A) :
  log_blind cache_record (read_cache field).
Proof.
  intros w l. unfold read_cache. cbn.
  destruct (cache w); cbn; (split; [by rewrite app_nil_r|constructor]).
Qed.

Lemma log_blind_get_cached_model_ids :
  log_blind cache_record (get_cached_model_ids env).
Proof.
  apply log_blind_bind; [apply log_blind_refresh_if_expired|].
  intros _. apply log_blind_read_cache.
Qed.

Lemma log_blind_get_models_for_ui :
  log_blind cache_record (get_models_for_ui env).
Proof.
  apply log_blind_bind; [apply log_blind_refresh_if_expired|].
  intros _. apply log_blind_read_cache.
Qed.

Lemma id_of_record_dict (d : gmap string PyVal) :
  id_of_record (PDict d)
  = Ok (match default PNone (d !! "id") with
        | PStr s => Some s
        | _ => None
        end).
Proof.
  unfold id_of_record, py_get, py_get_default. cbn [rbind].
  by destruct (default PNone (d !! "id")).
Qed.

Lemma simplify_record_dict (d : gmap string PyVal) :
  simplify_record (PDict d)
  = Ok (match default PNone (d !! "id") with
        | PStr s =>
            Some (mkUiModel (PStr s)
                    (default (default (PStr "unknown") (d !! "id"))
                             (d !! "name"))
                    (default PNone (d !! "context_length")))
        | _ => None
        end).
Proof.
  unfold simplify_record, py_get, py_get_default. cbn [rbind].
  by destruct (default PNone (d !! "id")).
Qed.

Lemma id_of_record_not_dict (m : PyVal) :
  (forall d, m <> PDict d) ->
  id_of_record m = Raise (AttributeError m "get").
Proof. intros H. destruct m; try done. by destruct (H d). Qed.

(** The two comprehensions of [_refresh_cache] keep the same records, in
    the same order. *)
Lemma comprehension_same_filter (models : list PyVal) (ids : list string)
  (simplified : list UiModel) :
  comprehension id_of_record models = Ok ids ->
  comprehension simplify_record models = Ok simplified ->
  um_id <$> simplified = PStr <$> ids.
Proof.
  revert ids simplified.
  induction models as [|m models IH]; intros ids simplified Hids Hsimp.
  - cbn in *. by simplify_eq.
  - cbn [comprehension] in *.
    destruct m as [| | | | | |d];
      try (cbn in Hids; discriminate).
    rewrite id_of_record_dict in Hids. rewrite simplify_record_dict in Hsimp.
    cbn [rbind] in *.
    destruct (comprehension id_of_record models) as [ids'|];
      [|discriminate].
    destruct (comprehension simplify_record models) as [simp'|];
      [|discriminate].
    specialize (IH _ _ eq_refl eq_refl). cbn [rbind] in *.
    destruct (default PNone (d !! "id"));
      simplify_eq; cbn; by rewrite ?IH.
Qed.

Lemma snapshot_consistent (models : list PyVal) (ids : list string)
  (simplified : list UiModel) :
  comprehension id_of_record models = Ok ids ->
  comprehension simplify_record models = Ok simplified ->
  consistent (mkSnapshot (list_to_set ids) simplified).
Proof.
  intros Hids Hsimp v. cbn.
  rewrite (comprehension_same_filter _ _ _ Hids Hsimp), list_elem_of_fmap.
  split; intros (i & -> & Hi); exists i; (split; [done|]); set_solver.
Qed.

Lemma fetch_models_run (w w' : World) (r : Result (list PyVal)) :
  fetch_models env w = (r, w') ->
  cache w' = cache w /\ cache_updated_at w' = cache_updated_at w
  /\ fetch_calls w' = S (fetch_calls w) /\ clock_reads w' = clock_reads w.
Proof.
  unfold fetch_models, bind, enter_fetch, emit, ret, lift.
  destruct (_get_api_key env (fetch_calls w)) as [[|c key]|];
    [| destruct (http_get_json env (fetch_calls w) (String c key)) |];
    intros H; by simplify_eq.
Qed.

(** A refresh calls [fetch_models] once; it either stores a consistent
    snapshot or raises and leaves the cache as it was. *)
Lemma refresh_cache_run (w w' : World) (r : Result unit) :
  _refresh_cache env w = (r, w') ->
  fetch_calls w' = S (fetch_calls w)
  /\ match r with
     | Ok _ => exists snap, cache w' = Some snap /\ consistent snap
     | Raise _ =>
         cache w' = cache w /\ cache_updated_at w' = cache_updated_at w
     end.
Proof.
  unfold _refresh_cache, bind.
  destruct (fetch_models env w) as [[models|e] w1] eqn:Hf;
    apply fetch_models_run in Hf as (Hc & Hu & Hn & _);
    [|intros H; by simplify_eq].
  unfold lift.
  destruct (comprehension id_of_record models) as [ids|] eqn:Hids;
    [|intros H; by simplify_eq].
  destruct (comprehension simplify_record models) as [simp|] eqn:Hsimp;
    [|intros H; by simplify_eq].
  unfold store_cache, monotonic, store_cache_updated_at. cbn.
  intros H. simplify_eq. cbn. split; [done|].
  eexists. split; [reflexivity|]. by eapply snapshot_consistent.
Qed.

Lemma cache_expired_run (w : World) :
  exists b w1,
    cache_expired env w = (Ok b, w1)
    /\ (b = true <-> stale env w)
    /\ cache w1 = cache w /\ cache_updated_at w1 = cache_updated_at w
    /\ fetch_calls w1 = fetch_calls w /\ log w1 = log w.
Proof.
  unfold cache_expired, stale. destruct (cache w) as [snap|] eqn:Hc.
  - cbn. eexists _, _. split; [reflexivity|]. cbn.
    split; [|done]. unfold elapsed.
    split; [by right|]. by intros [?|?].
  - eexists _, _. split; [reflexivity|]. split; [|done].
    split; [by left|done].
Qed.

Lemma refresh_if_expired_run (w w' : World) (r : Result unit) :
  refresh_if_expired env w = (r, w') ->
  (stale env w /\ fetch_calls w' = S (fetch_calls w)
   /\ match r with
      | Ok _ => exists snap, cache w' = Some snap /\ consistent snap
      | Raise _ =>
          cache w' = cache w /\ cache_updated_at w' = cache_updated_at w
      end)
  \/ (~ stale env w /\ r = Ok tt /\ fetch_calls w' = fetch_calls w
      /\ cache w' = cache w /\ cache_updated_at w' = cache_updated_at w).
Proof.
  unfold refresh_if_expired, bind.
  destruct (cache_expired_run w) as (b & w1 & -> & Hb & Hc & Hu & Hn & _).
  destruct b.
  - intros (Hn' & Hr)%refresh_cache_run. left.
    split; [by apply Hb|]. split; [congruence|].
    destruct r; [done|]. destruct Hr. split; congruence.
  - intros H. unfold ret in H. simplify_eq. right.
    split; [|done]. intros Hs. apply Hb in Hs. done.
Qed.

(** The common body of the accessors: whether it refreshed, what it hands
    out and what it leaves in the cache. *)
Lemma accessor_run {A : Type} (field : Snapshot -> A) (w w' : World)
  (r : Result A) :
  bind (refresh_if_expired env) (fun _ => read_cache field) w = (r, w') ->
  (stale env w /\ fetch_calls w' = S (fetch_calls w)
   \/ ~ stale env w /\ fetch_calls w' = fetch_calls w
      /\ cache w' = cache w /\ cache_updated_at w' = cache_updated_at w)
  /\ match r with
     | Ok x => exists snap, cache w' = Some snap /\ x = field snap
     | Raise _ => cache w' = cache w /\ stale env w
     end
  /\ (cache_consistent w -> cache_consistent w').
Proof.
  unfold bind.
  destruct (refresh_if_expired env w) as [[[]|e] w1] eqn:Hrun;
    apply refresh_if_expired_run in Hrun
      as [(Hs & Hn & Hr)|(Hs & Hr & Hn & Hc & Hu)];
    try discriminate.
  - destruct Hr as (snap & Hsnap & Hcons). unfold read_cache.
    rewrite Hsnap. intros H. simplify_eq.
    split; [by left|]. split; [by eexists|].
    intros _ s Hs'. by simplify_eq.
  - unfold read_cache. destruct (cache w1) as [snap|] eqn:Hsnap;
      intros H; simplify_eq.
    + split; [right; repeat split; congruence|]. split; [by eexists|].
      intros Hw s Hs'. apply Hw. congruence.
    + destruct Hs. left. congruence.
  - intros H. simplify_eq. destruct Hr as [Hc Hu].
    split; [by left|]. split; [done|].
    intros Hw s Hs'. apply Hw. congruence.
Qed.

Lemma call_run (a : Accessor) (w w' : World) (r : Result Answer) :
  call env a w = (r, w') ->
  (stale env w /\ fetch_calls w' = S (fetch_calls w)
   \/ ~ stale env w /\ fetch_calls w' = fetch_calls w
      /\ cache w' = cache w /\ cache_updated_at w' = cache_updated_at w)
  /\ match r with
     | Ok ans => exists snap, cache w' = Some snap /\ ans = view a snap
     | Raise _ => cache w' = cache w /\ stale env w
     end
  /\ (cache_consistent w -> cache_consistent w').
Proof.
  destruct a; cbn [call]; unfold bind at 1.
  - destruct (get_cached_model_ids env w) as [[x|e] w1] eqn:Hrun;
      apply accessor_run in Hrun as (H1 & H2 & H3);
      unfold ret; intros H; simplify_eq; (split; [done|split; [|done]]);
      [|done].
    destruct H2 as (snap & ? & ->). by eexists.
  - destruct (get_models_for_ui env w) as [[x|e] w1] eqn:Hrun;
      apply accessor_run in Hrun as (H1 & H2 & H3);
      unfold ret; intros H; simplify_eq; (split; [done|split; [|done]]);
      [|done].
    destruct H2 as (snap & ? & ->). by eexists.
Qed.

End CacheFacts.

Lemma fresh_not_stale (env : Env) (w : World) (snap : Snapshot) :
  cache w = Some snap ->
  within_ttl (monotonic_clock env (clock_reads w)) (cache_updated_at w) ->
  ~ stale env w.
Proof.
  unfold within_ttl. intros Hc Hlt [Hn|Hle]; congruence.
Qed.

(** ** The hook *)

Lemma check_allowed_run (s : string) (ids : gset string) (w : World) :
  check_allowed s ids w
  = (Ok (is_allowed_value s ids),
     set_log (log w
              ++ (if is_allowed_value s ids
                  then (if bool_decide (s ∈ ids) then []
                        else [mkLog INFO (MsgListUnavailable s)])
                  else [])) w).
Proof.
  unfold check_allowed, is_allowed_value.
  destruct (bool_decide (s ∈ ids)), (bool_decide (ids = ∅)),
    (PyStr.contains "/" s); cbn;
    rewrite ?app_nil_r, ?set_log_log; reflexivity.
Qed.

Lemma before_model_no_selection (env : Env) (ctx : CallbackContext)
  (req : LlmRequest) (w : World) :
  _read_selected_model_from_state ctx = None ->
  before_model env ctx req w
  = (Ok req,
     set_log (log w ++ prologue_records ctx
              ++ [mkLog INFO (MsgNoSelectedModel
                                (_format_model_for_log (model req)))]
              ++ content_records ctx req) w).
Proof.
  intros Hread. unfold before_model. rewrite Hread.
  unfold bind, emit, emit_all, ret, set_log, prologue_records. cbn.
  by rewrite <- !app_assoc.
Qed.

Lemma before_model_selected (env : Env) (ctx : CallbackContext)
  (req : LlmRequest) (w w1 : World) (s : string) (ids : gset string) :
  _read_selected_model_from_state ctx = Some s ->
  get_cached_model_ids env w = (Ok ids, w1) ->
  before_model env ctx req w
  = (Ok (fst (selection_outcome env req s ids)),
     set_log (log w ++ prologue_records ctx ++ emitted w w1
              ++ snd (selection_outcome env req s ids)
              ++ content_records ctx (fst (selection_outcome env req s ids)))
             w1).
Proof.
  intros Hread Hids.
  destruct (log_blind_run _ _ _ _ _ (log_blind_get_cached_model_ids env) Hids)
    as (d & Hd & _ & Hrs).
  rewrite (emitted_app _ _ _ Hd).
  unfold before_model. rewrite Hread.
  unfold bind at 1. unfold emit at 1. unfold bind at 1. unfold emit at 1.
  cbn [cache cache_updated_at fetch_calls clock_reads log].
  rewrite <- app_assoc.
  change (mkWorld (cache w) (cache_updated_at w) (fetch_calls w)
                  (clock_reads w) ?l)
    with (set_log (log w ++ prologue_records ctx) w).
  unfold bind at 1 2. unfold _get_allowed_model_ids. rewrite Hrs.
  unfold bind at 1. rewrite check_allowed_run.
  unfold selection_outcome, _apply_selected_model_to_request, setattr_model.
  destruct (is_allowed_value s ids); cbn [negb];
    [destruct (setattr_raises env req (model_for_request s))|];
    unfold bind, emit, emit_all, ret, set_log; cbn;
    rewrite <- ?app_assoc; reflexivity.
Qed.

Lemma before_model_cache_raises (env : Env) (ctx : CallbackContext)
  (req : LlmRequest) (w w1 : World) (s : string) (e : PyExc) :
  _read_selected_model_from_state ctx = Some s ->
  get_cached_model_ids env w = (Raise e, w1) ->
  before_model env ctx req w
  = (Raise e, set_log (log w ++ prologue_records ctx ++ emitted w w1) w1).
Proof.
  intros Hread Hids.
  destruct (log_blind_run _ _ _ _ _ (log_blind_get_cached_model_ids env) Hids)
    as (d & Hd & _ & Hrs).
  rewrite (emitted_app _ _ _ Hd).
  unfold before_model. rewrite Hread.
  unfold bind at 1. unfold emit at 1. unfold bind at 1. unfold emit at 1.
  cbn [cache cache_updated_at fetch_calls clock_reads log].
  rewrite <- app_assoc.
  change (mkWorld (cache w) (cache_updated_at w) (fetch_calls w)
                  (clock_reads w) ?l)
    with (set_log (log w ++ prologue_records ctx) w).
  unfold bind at 1 2. unfold _get_allowed_model_ids. by rewrite Hrs.
Qed.

Lemma content_records_not_selection (ctx : CallbackContext)
  (req : LlmRequest) (r : LogRecord) :
  r ∈ content_records ctx req -> ~ selection_record r.
Proof.
  unfold content_records.
  rewrite elem_of_app, elem_of_cons, elem_of_lookup_imap.
  intros [H|[->|(i & c & -> & _)]]; [|by intros []..].
  destruct (user_content ctx); [|by apply elem_of_nil in H].
  apply list_elem_of_singleton in H as ->. by intros [].
Qed.

Lemma selection_record_emitted (ctx : CallbackContext) (req : LlmRequest)
  (d recs : list LogRecord) (r : LogRecord) :
  Forall cache_record d -> selection_record r ->
  r ∈ prologue_records ctx ++ d ++ recs ++ content_records ctx req
  <-> r ∈ recs.
Proof.
  intros Hd Hr. rewrite !elem_of_app. split; [|tauto].
  intros [H|[H|[H|H]]]; [| |done|].
  - unfold prologue_records in H.
    rewrite !elem_of_cons, elem_of_nil in H.
    destruct H as [->|[->|[]]]; destruct Hr.
  - rewrite Forall_forall in Hd. destruct (Hd _ H) as (_ & [Hm|[e Hm]]);
      unfold selection_record in Hr; rewrite Hm in Hr; destruct Hr.
  - by apply content_records_not_selection in H.
Qed.

(** The hook with a model [s] read from the state and an allow-list [ids]
    handed out by the cache: it returns, and its records tell which way
    the selection went. *)
Lemma hook_decision (env : Env) (ctx : CallbackContext) (req : LlmRequest)
  (w w1 : World) (s : string) (ids : gset string) :
  _read_selected_model_from_state ctx = Some s ->
  get_cached_model_ids env w = (Ok ids, w1) ->
  exists w',
    before_model env ctx req w
    = (Ok (fst (selection_outcome env req s ids)), w')
    /\ (accepted s w w' <-> is_allowed_value s ids = true)
    /\ (rejected s w w' <-> is_allowed_value s ids = false)
    /\ (forall e, mkLog WARNING (MsgApplyFailed s e) ∈ emitted w w'
                  <-> is_allowed_value s ids = true
                      /\ setattr_raises env req (model_for_request s) = Some e)
    /\ cache w' = cache w1 /\ fetch_calls w' = fetch_calls w1.
Proof.
  intros Hread Hids. eexists. split; [by apply before_model_selected|].
  destruct (log_blind_run _ _ _ _ _ (log_blind_get_cached_model_ids env) Hids)
    as (d & Hd & HP & _).
  unfold accepted, rejected.
  rewrite (emitted_app w (set_log _ w1) _ eq_refl), (emitted_app _ _ _ Hd).
  split; [|split; [|split; [|done]]]; [| |intros e];
    (rewrite selection_record_emitted; [|done..]);
    unfold selection_outcome;
    destruct (is_allowed_value s ids), (bool_decide (s ∈ ids));
    try destruct (setattr_raises env req (model_for_request s));
    cbn [snd app];
    rewrite ?elem_of_cons, ?elem_of_nil; intuition congruence.
Qed.

Lemma is_allowed_value_true (s : string) (ids : gset string) :
  is_allowed_value s ids = true
  <-> s ∈ ids \/ ids = ∅ /\ PyStr.has_char "/"%char s.
Proof.
  unfold is_allowed_value.
  rewrite orb_true_iff, andb_true_iff, !bool_decide_eq_true, contains_slash.
  done.
Qed.

Lemma read_selected_str (ctx : CallbackContext) (raw : string) :
  state ctx !! SELECTED_MODEL_STATE_KEY = Some (PStr raw) ->
  _read_selected_model_from_state ctx
  = if PyStr.truthy (PyStr.strip raw) then Some (PyStr.strip raw) else None.
Proof. intros H. unfold _read_selected_model_from_state. by rewrite H. Qed.

(** C2: with an empty allow-list handed out by the cache, the requested
    id is accepted exactly when it contains "/"; an accepted id is
    written to the request in wire format (when the store succeeds), a
    bare id is rejected with the warning and the request is left as it
    was. *)
Theorem C2_empty_allow_list (env : Env) (ctx : CallbackContext)
  (req : LlmRequest) (w w1 : World) (s : string) :
  _read_selected_model_from_state ctx = Some s ->
  get_cached_model_ids env w = (Ok ∅, w1) ->
  exists req' w',
    before_model env ctx req w = (Ok req', w')
    /\ (accepted s w w' <-> PyStr.has_char "/"%char s)
    /\ (PyStr.has_char "/"%char s ->
        setattr_raises env req (model_for_request s) = None ->
        req' = mkRequest (ModelStr (model_for_request s)) (contents req))
    /\ (~ PyStr.has_char "/"%char s -> req' = req /\ rejected s w w').
Proof.
  intros Hread Hids.
  destruct (hook_decision env ctx req w w1 s ∅ Hread Hids)
    as (w' & Hrun & Hacc & Hrej & _).
  assert (Hval : is_allowed_value s ∅ = true <-> PyStr.has_char "/"%char s).
  { rewrite is_allowed_value_true. split; [|by right].
    intros [Hin|[_ Hs]]; [|done]. by apply not_elem_of_empty in Hin. }
  eexists _, w'. split; [exact Hrun|]. split; [by rewrite Hacc|].
  unfold selection_outcome. split.
  - intros Hs%Hval Hset. by rewrite Hs, Hset.
  - intros Hs. assert (Hf : is_allowed_value s ∅ = false).
    { destruct (is_allowed_value s ∅) eqn:Hv; [|done].
      destruct Hs. by apply Hval. }
    rewrite Hf. split; [done|]. by apply Hrej.
Qed.

(** C3: with a non-empty allow-list, a requested id that is a member is
    accepted (source "requested") and written to the request in wire
    format when the store succeeds; an id that is not a member is
    rejected (source "fallback"): the warning is recorded and the request
    is left as it was. *)
Theorem C3_nonempty_allow_list (env : Env) (ctx : CallbackContext)
  (req : LlmRequest) (w w1 : World) (s : string) (ids : gset string) :
  _read_selected_model_from_state ctx = Some s ->
  get_cached_model_ids env w = (Ok ids, w1) ->
  ids <> ∅ ->
  exists req' w',
    before_model env ctx req w = (Ok req', w')
    /\ (s ∈ ids ->
        accepted s w w' /\ ~ rejected s w w'
        /\ (setattr_raises env req (model_for_request s) = None ->
            req' = mkRequest (ModelStr (model_for_request s)) (contents req)))
    /\ (s ∉ ids -> req' = req /\ rejected s w w' /\ ~ accepted s w w').
Proof.
  intros Hread Hids Hne.
  destruct (hook_decision env ctx req w w1 s ids Hread Hids)
    as (w' & Hrun & Hacc & Hrej & _).
  eexists _, w'. split; [exact Hrun|]. unfold selection_outcome. split.
  - intros Hin. assert (Hv : is_allowed_value s ids = true).
    { apply is_allowed_value_true. by left. }
    rewrite Hacc, Hrej, Hv. split; [done|]. split; [done|].
    intros Hset. by rewrite Hset.
  - intros Hnotin. assert (Hv : is_allowed_value s ids = false).
    { destruct (is_allowed_value s ids) eqn:Hv; [|done].
      apply is_allowed_value_true in Hv as [?|[? _]]; done. }
    rewrite Hacc, Hrej, Hv. done.
Qed.

(** C4: when the state holds no selected model, a value that is not a
    string, or a string of whitespace only, the hook leaves the request as
    it was and does not call the cache: nothing but the log changes in the
    world, whatever the cache holds. *)
Theorem C4_no_usable_selection (env : Env) (ctx : CallbackContext)
  (req : LlmRequest) (w : World) :
  state ctx !! SELECTED_MODEL_STATE_KEY = None
  \/ (exists v, state ctx !! SELECTED_MODEL_STATE_KEY = Some v
               /\ is_str v = false)
  \/ (exists s, state ctx !! SELECTED_MODEL_STATE_KEY = Some (PStr s)
               /\ PyStr.all_space s = true) ->
  before_model env ctx req w
  = (Ok req,
     set_log (log w ++ prologue_records ctx
              ++ [mkLog INFO (MsgNoSelectedModel
                                (_format_model_for_log (model req)))]
              ++ content_records ctx req) w).
Proof.
  intros H. apply before_model_no_selection.
  unfold _read_selected_model_from_state.
  destruct H as [->|[(v & -> & Hv)|(s & -> & Hs)]]; [done| |].
  - by destruct v.
  - by rewrite (strip_all_space _ Hs).
Qed.

(** C6: when the selected model is accepted and applying it to the
    request raises, the hook catches the exception, records the warning,
    leaves the request as it was and returns normally. *)
Theorem C6_apply_failure_caught (env : Env) (ctx : CallbackContext)
  (req : LlmRequest) (w w1 : World) (s : string) (ids : gset string)
  (e : PyExc) :
  _read_selected_model_from_state ctx = Some s ->
  get_cached_model_ids env w = (Ok ids, w1) ->
  s ∈ ids \/ ids = ∅ /\ PyStr.has_char "/"%char s ->
  _apply_selected_model_to_request env req s = Raise e ->
  exists w',
    before_model env ctx req w = (Ok req, w')
    /\ mkLog WARNING (MsgApplyFailed s e) ∈ emitted w w'
    /\ accepted s w w'.
Proof.
  intros Hread Hids Hallowed%is_allowed_value_true Happly.
  destruct (hook_decision env ctx req w w1 s ids Hread Hids)
    as (w' & Hrun & Hacc & _ & Hfail & _).
  unfold _apply_selected_model_to_request, setattr_model in Happly.
  destruct (setattr_raises env req (model_for_request s)) as [e'|] eqn:Hset;
    [|discriminate].
  injection Happly as ->.
  exists w'. split.
  - rewrite Hrun. unfold selection_outcome. by rewrite Hallowed, Hset.
  - split; [by apply Hfail|by apply Hacc].
Qed.

(** C9: a string of the state with surrounding whitespace is read as its
    stripped form; the stripped form is what is looked up in the
    allow-list and, when accepted, what is put in wire format and written
    to the request. *)
Theorem C9_selected_model_stripped (env : Env) (ctx : CallbackContext)
  (req : LlmRequest) (w w1 : World) (l core r : string) (ids : gset string) :
  state ctx !! SELECTED_MODEL_STATE_KEY = Some (PStr (l +:+ core +:+ r)) ->
  PyStr.all_space l = true -> PyStr.all_space r = true ->
  PyStr.trimmed core = true ->
  get_cached_model_ids env w = (Ok ids, w1) ->
  _read_selected_model_from_state ctx = Some core
  /\ exists req' w',
       before_model env ctx req w = (Ok req', w')
       /\ (accepted core w w'
           <-> core ∈ ids \/ ids = ∅ /\ PyStr.has_char "/"%char core)
       /\ (accepted core w w' ->
           setattr_raises env req (model_for_request core) = None ->
           req' = mkRequest (ModelStr (model_for_request core))
                            (contents req)).
Proof.
  intros Hstate Hl Hr Hcore Hids.
  assert (Hread : _read_selected_model_from_state ctx = Some core).
  { rewrite (read_selected_str _ _ Hstate), strip_surrounded by done.
    destruct core; [discriminate|done]. }
  split; [exact Hread|].
  destruct (hook_decision env ctx req w w1 core ids Hread Hids)
    as (w' & Hrun & Hacc & _).
  eexists _, w'. split; [exact Hrun|].
  split; [by rewrite Hacc, is_allowed_value_true|].
  intros Ha%Hacc Hset. unfold selection_outcome. by rewrite Ha, Hset.
Qed.

(** ** Consistency of the stored snapshot *)

Lemma before_model_cache_consistent (env : Env) (ctx : CallbackContext)
  (req : LlmRequest) (w : World) :
  cache_consistent w -> cache_consistent (snd (before_model env ctx req w)).
Proof.
  intros Hw. destruct (_read_selected_model_from_state ctx) as [s|] eqn:Hread.
  - destruct (get_cached_model_ids env w) as [[ids|e] w1] eqn:Hids.
    + rewrite (before_model_selected _ _ _ _ _ _ _ Hread Hids).
      apply accessor_run in Hids as (_ & _ & H). by apply H.
    + rewrite (before_model_cache_raises _ _ _ _ _ _ _ Hread Hids).
      apply accessor_run in Hids as (_ & _ & H). by apply H.
  - by rewrite (before_model_no_selection _ _ _ _ Hread).
Qed.

Lemma reachable_cache_consistent (env : Env) (w : World) :
  reachable env w -> cache_consistent w.
Proof.
  induction 1 as [|w a _ IH|w ctx req _ IH].
  - intros s Hs. discriminate.
  - destruct (call env a w) as [r w'] eqn:Hrun.
    apply call_run in Hrun as (_ & _ & H). by apply H.
  - by apply before_model_cache_consistent.
Qed.

(** C10: in every world the program can reach, the stored snapshot's id
    set is exactly the set of the "id" values of its listing; hence the
    set handed out by [get_cached_model_ids] and the listing handed out by
    [get_models_for_ui] for the same snapshot agree. *)
Theorem C10_snapshot_consistent (env : Env) (w : World) :
  reachable env w ->
  cache_consistent w
  /\ forall ids ms w1 w2,
       get_cached_model_ids env w = (Ok ids, w1) ->
       get_models_for_ui env w1 = (Ok ms, w2) ->
       cache w2 = cache w1 ->
       forall v : PyVal,
         v ∈ um_id <$> ms <-> exists i, v = PStr i /\ i ∈ ids.
Proof.
  intros Hreach. pose proof (reachable_cache_consistent _ _ Hreach) as Hw.
  split; [exact Hw|].
  intros ids ms w1 w2 Hids Hms Hsame.
  apply accessor_run in Hids as (_ & (snap & Hsnap & ->) & Hw1).
  apply accessor_run in Hms as (_ & (snap' & Hsnap' & ->) & _).
  assert (snap' = snap) as -> by congruence.
  by apply (Hw1 Hw).
Qed.

(** ** Fetch outcomes *)

Lemma comprehension_dicts {B : Type} (f : PyVal -> Result (option B))
  (l : list PyVal) :
  (forall d, exists o, f (PDict d) = Ok o) ->
  Forall (fun m => exists d, m = PDict d) l ->
  exists r, comprehension f l = Ok r.
Proof.
  intros Hf. induction 1 as [|m l [d ->] _ [r IH]]; [by eexists|].
  destruct (Hf d) as [o Ho]. cbn [comprehension].
  rewrite Ho, IH. cbn. by eexists.
Qed.

(** The accessors return whenever the fetch outcome is one of those the
    code is prepared for. *)
Lemma call_returns_on_handled (env : Env) (a : Accessor) (w : World) :
  handled_response env (fetch_calls w) ->
  exists ans w', call env a w = (Ok ans, w').
Proof.
  intros Hh.
  assert (Hrefresh : forall w0, fetch_calls w0 = fetch_calls w ->
            exists w', _refresh_cache env w0 = (Ok tt, w')
                       /\ is_Some (cache w')).
  { intros w0 Hn. unfold _refresh_cache, fetch_models, bind at 1 2.
    unfold enter_fetch, _get_api_key. rewrite Hn. unfold handled_response in Hh.
    assert (Hempty : forall w2 : World,
      exists w', bind (lift (comprehension id_of_record []))
        (fun ids => bind (lift (comprehension simplify_record []))
          (fun simplified =>
             bind (store_cache (mkSnapshot (list_to_set ids) simplified))
               (fun _ => bind (monotonic env)
                           (fun t => store_cache_updated_at t)))) w2
        = (Ok (), w') /\ is_Some (cache w')).
    { intros w2. eexists. split; [reflexivity|]. by eexists. }
    destruct (environ_api_key env (fetch_calls w)) as [[|c key]|];
      [apply Hempty| |apply Hempty].
    destruct (http_get_json env (fetch_calls w) (String c key)) as [data|e];
      [|apply Hempty].
    destruct data as [| | | | | |d]; try done.
    unfold lift at 1, raw_models_of, py_get, py_get_default. cbn [rbind].
    destruct (d !! "data") as [[| | | | |l|]|]; cbn [default];
      try apply Hempty.
    destruct (comprehension_dicts id_of_record l) as [ids Hids];
      [intros d0; rewrite id_of_record_dict; by eexists|done|].
    destruct (comprehension_dicts simplify_record l) as [simp Hsimp];
      [intros d0; rewrite simplify_record_dict; by eexists|done|].
    unfold id. cbv beta iota. unfold bind, lift. rewrite Hids, Hsimp.
    eexists. split; [reflexivity|]. by eexists. }
  assert (Hbody : exists w1, refresh_if_expired env w = (Ok tt, w1)
                             /\ is_Some (cache w1)).
  { unfold refresh_if_expired, bind, cache_expired.
    destruct (cache w) as [snap|] eqn:Hc.
    - unfold bind, monotonic, ret.
      destruct (PrimFloat.leb _ _).
      + apply Hrefresh. done.
      + eexists. split; [reflexivity|]. cbn. by eexists.
    - apply Hrefresh. done. }
  destruct Hbody as (w1 & Hrun & [snap Hsnap]).
  destruct a; cbn [call]; unfold get_cached_model_ids, get_models_for_ui,
    bind, read_cache, ret; rewrite Hrun, Hsnap; by eexists _, _.
Qed.

(** C1 (the code departs from the claim): the endpoint answers with a
    JSON document that is not an object, or whose "data" list holds a
    value that is not an object; [data.get] or [m.get] raises
    [AttributeError] outside the [try] statement, and the exception
    leaves both accessors and the hook that consults them. *)
Theorem C1_malformed_document_raises :
  fst (get_cached_model_ids env_array_document initial_world)
  = Raise (mkExc "AttributeError" "'list' object has no attribute 'get'")
  /\ fst (get_models_for_ui env_array_document initial_world)
     = Raise (mkExc "AttributeError" "'list' object has no attribute 'get'")
  /\ fst (get_cached_model_ids env_scalar_record initial_world)
     = Raise (mkExc "AttributeError" "'int' object has no attribute 'get'")
  /\ fst (get_models_for_ui env_scalar_record initial_world)
     = Raise (mkExc "AttributeError" "'int' object has no attribute 'get'")
  /\ fst (before_model env_array_document
            (sample_context (Some (PStr "foo"))) sample_request initial_world)
     = Raise (mkExc "AttributeError" "'list' object has no attribute 'get'").
Proof. repeat split; vm_compute; reflexivity. Qed.

(** ** The properties at sample inputs *)

Example empty_allow_list_samples :
  fst (before_model env_no_key (sample_context (Some (PStr "vendor/model-x")))
         sample_request initial_world)
  = Ok (mkRequest (ModelStr "openrouter/vendor/model-x")
                  (contents sample_request))
  /\ fst (before_model env_no_key (sample_context (Some (PStr "bareid")))
            sample_request initial_world)
     = Ok sample_request.
Proof. split; vm_compute; reflexivity. Qed.

Example catalog_samples :
  fst (get_cached_model_ids env_catalog initial_world)
  = Ok (list_to_set ["vendor/model-x"; "foo"])
  /\ fst (before_model env_catalog (sample_context (Some (PStr "  foo  ")))
            sample_request initial_world)
     = Ok (mkRequest (ModelStr "openrouter/foo") (contents sample_request))
  /\ fst (before_model env_catalog (sample_context (Some (PStr "bar/baz")))
            sample_request initial_world)
     = Ok sample_request
  /\ fst (before_model env_frozen_request (sample_context (Some (PStr "foo")))
            sample_request initial_world)
     = Ok sample_request.
Proof. repeat split; vm_compute; reflexivity. Qed.

Lemma C2_empty_allow_list_witness :
  _read_selected_model_from_state
    (sample_context (Some (PStr "vendor/model-x"))) = Some "vendor/model-x"
  /\ get_cached_model_ids env_no_key initial_world = (Ok ∅, world_no_key)
  /\ exists req' w',
       before_model env_no_key (sample_context (Some (PStr "vendor/model-x")))
         sample_request initial_world = (Ok req', w')
       /\ (accepted "vendor/model-x" initial_world w'
           <-> PyStr.has_char "/"%char "vendor/model-x")
       /\ (PyStr.has_char "/"%char "vendor/model-x" ->
           setattr_raises env_no_key sample_request
             (model_for_request "vendor/model-x") = None ->
           req' = mkRequest (ModelStr (model_for_request "vendor/model-x"))
                            (contents sample_request))
       /\ (~ PyStr.has_char "/"%char "vendor/model-x" ->
           req' = sample_request
           /\ rejected "vendor/model-x" initial_world w').
Proof.
  split; [reflexivity|]. split; [reflexivity|].
  apply (C2_empty_allow_list env_no_key
           (sample_context (Some (PStr "vendor/model-x")))
           sample_request initial_world world_no_key "vendor/model-x");
    reflexivity.
Defined.

Lemma sample_ids_nonempty : sample_ids <> ∅.
Proof.
  intros H. apply (f_equal (fun s : gset string => bool_decide ("foo" ∈ s))) in H.
  vm_compute in H. discriminate.
Qed.

Lemma C3_nonempty_allow_list_witness :
  _read_selected_model_from_state (sample_context (Some (PStr "foo")))
  = Some "foo"
  /\ get_cached_model_ids env_catalog initial_world
     = (Ok sample_ids, world_catalog)
  /\ sample_ids <> ∅
  /\ exists req' w',
       before_model env_catalog (sample_context (Some (PStr "foo")))
         sample_request initial_world = (Ok req', w')
       /\ ("foo" ∈ sample_ids ->
           accepted "foo" initial_world w' /\ ~ rejected "foo" initial_world w'
           /\ (setattr_raises env_catalog sample_request
                 (model_for_request "foo") = None ->
               req' = mkRequest (ModelStr (model_for_request "foo"))
                                (contents sample_request)))
       /\ ("foo" ∉ sample_ids ->
           req' = sample_request /\ rejected "foo" initial_world w'
           /\ ~ accepted "foo" initial_world w').
Proof.
  split; [reflexivity|]. split; [vm_compute; reflexivity|].
  split; [exact sample_ids_nonempty|].
  apply (C3_nonempty_allow_list env_catalog
           (sample_context (Some (PStr "foo")))
           sample_request initial_world world_catalog "foo" sample_ids);
    [reflexivity|vm_compute; reflexivity|exact sample_ids_nonempty].
Defined.

Lemma C4_no_usable_selection_witness :
  (state (sample_context (Some (PStr "   "))) !! SELECTED_MODEL_STATE_KEY
   = None
   \/ (exists v, state (sample_context (Some (PStr "   ")))
                  !! SELECTED_MODEL_STATE_KEY = Some v
                /\ is_str v = false)
   \/ (exists s, state (sample_context (Some (PStr "   ")))
                  !! SELECTED_MODEL_STATE_KEY = Some (PStr s)
                /\ PyStr.all_space s = true))
  /\ before_model env_catalog (sample_context (Some (PStr "   ")))
       sample_request world_catalog
     = (Ok sample_request,
        set_log (log world_catalog
                 ++ prologue_records (sample_context (Some (PStr "   ")))
                 ++ [mkLog INFO (MsgNoSelectedModel
                                   (_format_model_for_log
                                      (model sample_request)))]
                 ++ content_records (sample_context (Some (PStr "   ")))
                                    sample_request) world_catalog).
Proof.
  assert (H : state (sample_context (Some (PStr "   ")))
                !! SELECTED_MODEL_STATE_KEY = None
   \/ (exists v, state (sample_context (Some (PStr "   ")))
                  !! SELECTED_MODEL_STATE_KEY = Some v
                /\ is_str v = false)
   \/ (exists s, state (sample_context (Some (PStr "   ")))
                  !! SELECTED_MODEL_STATE_KEY = Some (PStr s)
                /\ PyStr.all_space s = true)).
  { right. right. exists "   ". split; reflexivity. }
  split; [exact H|].
  exact (C4_no_usable_selection env_catalog
           (sample_context (Some (PStr "   "))) sample_request world_catalog H).
Defined.

Lemma C6_apply_failure_caught_witness :
  _read_selected_model_from_state (sample_context (Some (PStr "foo")))
  = Some "foo"
  /\ get_cached_model_ids env_frozen_request initial_world
     = (Ok sample_ids, world_frozen)
  /\ ("foo" ∈ sample_ids \/ sample_ids = ∅ /\ PyStr.has_char "/"%char "foo")
  /\ _apply_selected_model_to_request env_frozen_request sample_request "foo"
     = Raise (mkExc "ValueError" "frozen instance")
  /\ exists w',
       before_model env_frozen_request (sample_context (Some (PStr "foo")))
         sample_request initial_world = (Ok sample_request, w')
       /\ mkLog WARNING (MsgApplyFailed "foo"
                           (mkExc "ValueError" "frozen instance"))
            ∈ emitted initial_world w'
       /\ accepted "foo" initial_world w'.
Proof.
  assert (Hin : "foo" ∈ sample_ids
                \/ sample_ids = ∅ /\ PyStr.has_char "/"%char "foo").
  { left. vm_compute. reflexivity. }
  split; [reflexivity|]. split; [vm_compute; reflexivity|].
  split; [exact Hin|]. split; [reflexivity|].
  apply (C6_apply_failure_caught env_frozen_request
           (sample_context (Some (PStr "foo"))) sample_request
           initial_world world_frozen "foo" sample_ids
           (mkExc "ValueError" "frozen instance"));
    [reflexivity|vm_compute; reflexivity|exact Hin|reflexivity].
Defined.

Lemma C9_selected_model_stripped_witness :
  state (sample_context (Some (PStr "  foo  "))) !! SELECTED_MODEL_STATE_KEY
  = Some (PStr ("  " +:+ "foo" +:+ "  "))
  /\ PyStr.all_space "  " = true
  /\ PyStr.trimmed "foo" = true
  /\ get_cached_model_ids env_catalog initial_world
     = (Ok sample_ids, world_catalog)
  /\ _read_selected_model_from_state (sample_context (Some (PStr "  foo  ")))
     = Some "foo"
  /\ exists req' w',
       before_model env_catalog (sample_context (Some (PStr "  foo  ")))
         sample_request initial_world = (Ok req', w')
       /\ (accepted "foo" initial_world w'
           <-> "foo" ∈ sample_ids
               \/ sample_ids = ∅ /\ PyStr.has_char "/"%char "foo")
       /\ (accepted "foo" initial_world w' ->
           setattr_raises env_catalog sample_request
             (model_for_request "foo") = None ->
           req' = mkRequest (ModelStr (model_for_request "foo"))
                            (contents sample_request)).
Proof.
  split; [reflexivity|]. split; [reflexivity|]. split; [reflexivity|].
  split; [vm_compute; reflexivity|].
  apply (C9_selected_model_stripped env_catalog
           (sample_context (Some (PStr "  foo  "))) sample_request
           initial_world world_catalog "  " "foo" "  " sample_ids);
    [reflexivity|reflexivity|reflexivity|reflexivity|vm_compute; reflexivity].
Defined.

Lemma C10_snapshot_consistent_witness :
  reachable env_catalog world_catalog
  /\ cache_consistent world_catalog
  /\ forall ids ms w1 w2,
       get_cached_model_ids env_catalog world_catalog = (Ok ids, w1) ->
       get_models_for_ui env_catalog w1 = (Ok ms, w2) ->
       cache w2 = cache w1 ->
       forall v : PyVal,
         v ∈ um_id <$> ms <-> exists i, v = PStr i /\ i ∈ ids.
Proof.
  assert (H : reachable env_catalog world_catalog).
  { exact (reach_call env_catalog initial_world GetIds
             (reach_initial env_catalog)). }
  split; [exact H|].
  exact (C10_snapshot_consistent env_catalog world_catalog H).
Defined.

(** ** Further properties of the cache *)

Section CacheRuns.

Variable env : Env.

Lemma fetch_models_eq (w : World) :
  fetch_models env w
  = (fst (fetch_result env (fetch_calls w)),
     mkWorld (cache w) (cache_updated_at w) (S (fetch_calls w))
             (clock_reads w)
             (log w ++ snd (fetch_result env (fetch_calls w)))).
Proof.
  unfold fetch_models, fetch_result, bind, enter_fetch, _get_api_key,
    emit, ret, lift.
  destruct (environ_api_key env (fetch_calls w)) as [[|c key]|];
    [| destruct (http_get_json env (fetch_calls w) (String c key)) |];
    cbn; rewrite ?app_nil_r; reflexivity.
Qed.

Lemma refresh_cache_eq (w : World) :
  _refresh_cache env w
  = match refresh_result env (fetch_calls w) with
    | Ok snap =>
        (Ok tt,
         mkWorld (Some snap) (monotonic_clock env (clock_reads w))
                 (S (fetch_calls w)) (S (clock_reads w))
                 (log w ++ snd (fetch_result env (fetch_calls w))))
    | Raise e =>
        (Raise e,
         mkWorld (cache w) (cache_updated_at w) (S (fetch_calls w))
                 (clock_reads w)
                 (log w ++ snd (fetch_result env (fetch_calls w))))
    end.
Proof.
  unfold _refresh_cache, refresh_result. unfold bind at 1.
  rewrite fetch_models_eq.
  destruct (fst (fetch_result env (fetch_calls w))) as [models|e];
    [|reflexivity].
  cbn [rbind]. unfold bind at 1, lift at 1.
  destruct (comprehension id_of_record models) as [ids|e]; [|reflexivity].
  cbn [rbind]. unfold bind at 1, lift at 1.
  destruct (comprehension simplify_record models) as [simp|e];
    reflexivity.
Qed.

Lemma cache_expired_eq (w : World) :
  cache_expired env w = (Ok (expired_b env w), checked w).
Proof.
  unfold cache_expired, expired_b, checked.
  destruct (cache w) eqn:Hc; [|reflexivity].
  unfold bind, monotonic, ret. by rewrite Hc.
Qed.

Lemma checked_fields (w : World) :
  cache (checked w) = cache w
  /\ cache_updated_at (checked w) = cache_updated_at w
  /\ fetch_calls (checked w) = fetch_calls w
  /\ log (checked w) = log w.
Proof. unfold checked. by destruct (cache w) eqn:Hc. Qed.

(** The common body of the accessors, computed. *)
Lemma accessor_eq {A : Type} (field : Snapshot -> A) (w : World) :
  bind (refresh_if_expired env) (fun _ => read_cache field) w
  = if expired_b env w then
      match refresh_result env (fetch_calls w) with
      | Ok snap =>
          (Ok (field snap),
           mkWorld (Some snap)
                   (monotonic_clock env (clock_reads (checked w)))
                   (S (fetch_calls w)) (S (clock_reads (checked w)))
                   (log w ++ snd (fetch_result env (fetch_calls w))))
      | Raise e =>
          (Raise e,
           mkWorld (cache w) (cache_updated_at w) (S (fetch_calls w))
                   (clock_reads (checked w))
                   (log w ++ snd (fetch_result env (fetch_calls w))))
      end
    else
      match cache w with
      | Some snap => (Ok (field snap), checked w)
      | None => (Raise (mkExc "TypeError"
                              "'NoneType' object is not subscriptable"), w)
      end.
Proof.
  unfold refresh_if_expired. unfold bind at 1 2. rewrite cache_expired_eq.
  destruct (checked_fields w) as (Hc & Hu & Hn & Hl).
  destruct (expired_b env w).
  - rewrite refresh_cache_eq, Hn, Hc, Hu, Hl.
    by destruct (refresh_result env (fetch_calls w)).
  - unfold ret, read_cache. rewrite Hc. destruct (cache w) eqn:Hcw; [done|].
    unfold checked. by rewrite Hcw.
Qed.

Lemma call_eq (a : Accessor) (w : World) :
  call env a w
  = if expired_b env w then
      match refresh_result env (fetch_calls w) with
      | Ok snap =>
          (Ok (view a snap),
           mkWorld (Some snap)
                   (monotonic_clock env (clock_reads (checked w)))
                   (S (fetch_calls w)) (S (clock_reads (checked w)))
                   (log w ++ snd (fetch_result env (fetch_calls w))))
      | Raise e =>
          (Raise e,
           mkWorld (cache w) (cache_updated_at w) (S (fetch_calls w))
                   (clock_reads (checked w))
                   (log w ++ snd (fetch_result env (fetch_calls w))))
      end
    else
      match cache w with
      | Some snap => (Ok (view a snap), checked w)
      | None => (Raise (mkExc "TypeError"
                              "'NoneType' object is not subscriptable"), w)
      end.
Proof.
  destruct a; cbn [call]; unfold bind at 1;
    unfold get_cached_model_ids, get_models_for_ui;
    rewrite accessor_eq;
    destruct (expired_b env w);
    [destruct (refresh_result env (fetch_calls w))|destruct (cache w)
    |destruct (refresh_result env (fetch_calls w))|destruct (cache w)];
    reflexivity.
Qed.

Lemma expired_b_stale (w : World) : expired_b env w = true <-> stale env w.
Proof.
  unfold expired_b, stale. destruct (cache w).
  - unfold elapsed. split; [by right|]. by intros [?|?].
  - split; [by left|done].
Qed.

End CacheRuns.

(** C7: a call of an accessor refreshes (one call of the fetch) exactly
    when no snapshot exists or the time elapsed since the stored timestamp
    is at least 60 seconds; a refresh that returns stamps the snapshot
    with the reading of the clock it takes; when a call has returned and a
    second call reads the clock within 60 seconds of that timestamp, the
    second call fetches nothing and both calls hand out the same stored
    snapshot, so that a pair which starts with an absent or expired cache
    fetches once. *)
Theorem C7_refresh_exactly_when_stale (env : Env) :
  (forall a w,
     (stale env w -> fetch_calls (snd (call env a w)) = S (fetch_calls w))
     /\ (~ stale env w ->
         fetch_calls (snd (call env a w)) = fetch_calls w))
  /\ (forall a w r w',
        stale env w -> call env a w = (Ok r, w') ->
        cache_updated_at w' = monotonic_clock env (pred (clock_reads w')))
  /\ (forall a b w0 w1 r1,
        call env a w0 = (Ok r1, w1) ->
        within_ttl (monotonic_clock env (clock_reads w1))
                   (cache_updated_at w1) ->
        exists snap r2 w2,
          call env b w1 = (Ok r2, w2)
          /\ cache w1 = Some snap /\ cache w2 = Some snap
          /\ r1 = view a snap /\ r2 = view b snap
          /\ fetch_calls w2 = fetch_calls w1
          /\ cache_updated_at w2 = cache_updated_at w1
          /\ (stale env w0 ->
              fetch_calls w2 = S (fetch_calls w0)
              /\ cache_updated_at w2
                 = monotonic_clock env (pred (clock_reads w1)))).
Proof.
  assert (Hstamp : forall a w r w',
            stale env w -> call env a w = (Ok r, w') ->
            cache_updated_at w' = monotonic_clock env (pred (clock_reads w'))).
  { intros a w r w' Hs%expired_b_stale. rewrite call_eq, Hs.
    destruct (refresh_result env (fetch_calls w)); [|discriminate].
    intros H. by injection H as _ <-. }
  split; [|split; [exact Hstamp|]].
  - intros a w. destruct (call env a w) as [r w'] eqn:Hrun.
    apply call_run in Hrun as ([[Hs Hn]|(Hs & Hn & _)] & _); cbn [snd];
      split; intros Hs'; done.
  - intros a b w0 w1 r1 Hfirst Hage.
    pose proof Hfirst as Hfirst'.
    apply call_run in Hfirst as (Hn1 & (snap & Hsnap & ->) & _).
    pose proof (fresh_not_stale _ _ _ Hsnap Hage) as Hfresh.
    destruct (call env b w1) as [r2 w2] eqn:Hsecond.
    apply call_run in Hsecond
      as ([[Hs _]|(_ & Hn2 & Hc2 & Hu2)] & Hr2 & _); [done|].
    destruct r2 as [r2|e]; [|by destruct Hr2].
    destruct Hr2 as (snap' & Hsnap' & ->).
    assert (snap' = snap) as -> by congruence.
    exists snap, (view b snap), w2. repeat split; try done.
    + destruct Hn1 as [[_ Hn1]|[Hs _]]; [congruence|done].
    + rewrite Hu2. by eapply Hstamp.
Qed.

Lemma C7_refresh_exactly_when_stale_witness :
  call env_catalog GetIds initial_world
  = (Ok (AnsIds sample_ids), world_catalog)
  /\ within_ttl (monotonic_clock env_catalog (clock_reads world_catalog))
                (cache_updated_at world_catalog)
  /\ exists snap r2 w2,
       call env_catalog GetModels world_catalog = (Ok r2, w2)
       /\ cache world_catalog = Some snap /\ cache w2 = Some snap
       /\ AnsIds sample_ids = view GetIds snap /\ r2 = view GetModels snap
       /\ fetch_calls w2 = fetch_calls world_catalog
       /\ cache_updated_at w2 = cache_updated_at world_catalog
       /\ (stale env_catalog initial_world ->
           fetch_calls w2 = S (fetch_calls initial_world)
           /\ cache_updated_at w2
              = monotonic_clock env_catalog
                  (pred (clock_reads world_catalog))).
Proof.
  split; [vm_compute; reflexivity|]. split; [vm_compute; reflexivity|].
  apply (proj2 (proj2 (C7_refresh_exactly_when_stale env_catalog))
           GetIds GetModels initial_world world_catalog (AnsIds sample_ids));
    vm_compute; reflexivity.
Defined.

(** The rounding of the subtraction is part of the age test: with the
    timestamp 0.3 and the reading 60.3 (the nearest floats) the exact
    difference is below 60, the computed one is 60.0, and the call
    fetches again. *)
Example elapsed_is_rounded :
  elapsed 0x1.e266666666666p+5%float 0x1.3333333333333p-2%float = 60%float
  /\ stale env_boundary world_boundary
  /\ fetch_calls (snd (call env_boundary GetIds world_boundary))
     = S (fetch_calls world_boundary).
Proof. split; [|split; [right|]]; vm_compute; reflexivity. Qed.

Lemma comprehension_id_of_dicts (ds : list (gmap string PyVal)) :
  comprehension id_of_record (PDict <$> ds) = Ok (omap record_id ds).
Proof.
  induction ds as [|d ds IH]; [done|].
  cbn [fmap list_fmap comprehension omap list_omap].
  change (list_fmap _ _ PDict ds) with (PDict <$> ds).
  change (list_omap _ _ record_id ds) with (omap record_id ds).
  rewrite id_of_record_dict, IH. unfold record_id. cbn [rbind].
  by destruct (d !! "id") as [[]|].
Qed.

Lemma comprehension_simplify_dicts (ds : list (gmap string PyVal)) :
  comprehension simplify_record (PDict <$> ds) = Ok (omap listing_entry ds).
Proof.
  induction ds as [|d ds IH]; [done|].
  cbn [fmap list_fmap comprehension omap list_omap].
  change (list_fmap _ _ PDict ds) with (PDict <$> ds).
  change (list_omap _ _ listing_entry ds) with (omap listing_entry ds).
  rewrite simplify_record_dict, IH. unfold listing_entry. cbn [rbind].
  by destruct (d !! "id") as [[]|].
Qed.

Lemma emitted_mk (w : World) (c : option Snapshot) (t : float) (n k : nat)
  (d : list LogRecord) :
  emitted w (mkWorld c t n k (log w ++ d)) = d.
Proof. by apply emitted_app. Qed.

(** A refresh whose fetch returned [models] without raising in the
    comprehensions. *)
Lemma stale_call_result (env : Env) (a : Accessor) (w : World)
  (snap : Snapshot) :
  stale env w ->
  refresh_result env (fetch_calls w) = Ok snap ->
  exists w',
    call env a w = (Ok (view a snap), w')
    /\ cache w' = Some snap
    /\ emitted w w' = snd (fetch_result env (fetch_calls w))
    /\ fetch_calls w' = S (fetch_calls w).
Proof.
  intros Hs%expired_b_stale Hr. rewrite call_eq, Hs, Hr.
  eexists. split; [reflexivity|]. cbn [cache fetch_calls].
  by rewrite emitted_mk.
Qed.

(** X1: a refresh without credential (variable unset or empty) returns
    the empty result, stores the empty snapshot and emits the one
    warning; the endpoint plays no part. *)
Theorem no_credential_empty_result (env : Env) (a : Accessor) (w : World) :
  stale env w ->
  environ_api_key env (fetch_calls w) = None
  \/ environ_api_key env (fetch_calls w) = Some "" ->
  exists w',
    call env a w = (Ok (view a empty_snapshot), w')
    /\ cache w' = Some empty_snapshot
    /\ emitted w w' = [mkLog WARNING MsgNoApiKey]
    /\ fetch_calls w' = S (fetch_calls w).
Proof.
  intros Hs Hkey.
  assert (Hf : fetch_result env (fetch_calls w)
               = (Ok [], [mkLog WARNING MsgNoApiKey])).
  { unfold fetch_result. by destruct Hkey as [-> | ->]. }
  destruct (stale_call_result env a w empty_snapshot Hs) as (w' & H).
  - unfold refresh_result. by rewrite Hf.
  - rewrite Hf in H. by exists w'.
Qed.

(** X2: a refresh whose request, read or decoding raises returns the
    empty result, stores the empty snapshot and emits the warning that
    carries the exception. *)
Theorem transport_error_empty_result (env : Env) (a : Accessor) (w : World)
  (api_key : string) (e : PyExc) :
  stale env w ->
  environ_api_key env (fetch_calls w) = Some api_key ->
  api_key <> "" ->
  http_get_json env (fetch_calls w) api_key = Raise e ->
  exists w',
    call env a w = (Ok (view a empty_snapshot), w')
    /\ cache w' = Some empty_snapshot
    /\ emitted w w' = [mkLog WARNING (MsgFetchFailed e)]
    /\ fetch_calls w' = S (fetch_calls w).
Proof.
  intros Hs Hkey Hne Hhttp.
  assert (Hf : fetch_result env (fetch_calls w)
               = (Ok [], [mkLog WARNING (MsgFetchFailed e)])).
  { unfold fetch_result. rewrite Hkey. destruct api_key; [done|].
    by rewrite Hhttp. }
  destruct (stale_call_result env a w empty_snapshot Hs) as (w' & H).
  - unfold refresh_result. by rewrite Hf.
  - rewrite Hf in H. by exists w'.
Qed.

(** X3: when the decoded document is a JSON object whose "data" is
    missing or is not a list, the refresh returns the empty result and
    stores the empty snapshot without any log record. *)
Theorem missing_data_list_silent (env : Env) (a : Accessor) (w : World)
  (api_key : string) (doc : gmap string PyVal) :
  stale env w ->
  environ_api_key env (fetch_calls w) = Some api_key ->
  api_key <> "" ->
  http_get_json env (fetch_calls w) api_key = Ok (PDict doc) ->
  (forall l, doc !! "data" <> Some (PList l)) ->
  exists w',
    call env a w = (Ok (view a empty_snapshot), w')
    /\ cache w' = Some empty_snapshot
    /\ emitted w w' = []
    /\ fetch_calls w' = S (fetch_calls w).
Proof.
  intros Hs Hkey Hne Hhttp Hdata.
  assert (Hf : fetch_result env (fetch_calls w) = (Ok [], [])).
  { unfold fetch_result. rewrite Hkey. destruct api_key; [done|].
    rewrite Hhttp. unfold raw_models_of, py_get, py_get_default.
    cbn [rbind]. destruct (doc !! "data") as [[| | | | |l|]|] eqn:Hd;
      try reflexivity. by destruct (Hdata l). }
  destruct (stale_call_result env a w empty_snapshot Hs) as (w' & H).
  - unfold refresh_result. by rewrite Hf.
  - rewrite Hf in H. by exists w'.
Qed.

(** X4: when the document is a JSON object whose "data" is a list of
    JSON objects, the refresh keeps the records whose "id" is a string,
    in the order of the document: the id set is the set of those ids, and
    each listing entry carries the id, the record's "name" when the key is
    present (the id otherwise) and its "context_length" ([None] when
    absent).  No record is logged. *)
Theorem catalog_snapshot (env : Env) (a : Accessor) (w : World)
  (api_key : string) (doc : gmap string PyVal)
  (ds : list (gmap string PyVal)) :
  stale env w ->
  environ_api_key env (fetch_calls w) = Some api_key ->
  api_key <> "" ->
  http_get_json env (fetch_calls w) api_key = Ok (PDict doc) ->
  doc !! "data" = Some (PList (PDict <$> ds)) ->
  exists w',
    call env a w
    = (Ok (view a (mkSnapshot (list_to_set (omap record_id ds))
                              (omap listing_entry ds))), w')
    /\ cache w' = Some (mkSnapshot (list_to_set (omap record_id ds))
                                   (omap listing_entry ds))
    /\ emitted w w' = []
    /\ fetch_calls w' = S (fetch_calls w).
Proof.
  intros Hs Hkey Hne Hhttp Hdata.
  assert (Hf : fetch_result env (fetch_calls w) = (Ok (PDict <$> ds), [])).
  { unfold fetch_result. rewrite Hkey. destruct api_key; [done|].
    rewrite Hhttp. unfold raw_models_of, py_get, py_get_default.
    cbn [rbind]. by rewrite Hdata. }
  destruct (stale_call_result env a w
              (mkSnapshot (list_to_set (omap record_id ds))
                          (omap listing_entry ds)) Hs) as (w' & H).
  - unfold refresh_result. rewrite Hf. cbn [fst rbind].
    rewrite comprehension_id_of_dicts. cbn [rbind].
    by rewrite comprehension_simplify_dicts.
  - rewrite Hf in H. by exists w'.
Qed.

Lemma comprehension_id_ok (l : list PyVal) (ids : list string) :
  comprehension id_of_record l = Ok ids ->
  Forall (fun m => exists d, m = PDict d) l.
Proof.
  revert ids. induction l as [|m l IH]; intros ids H; [constructor|].
  cbn [comprehension] in H.
  destruct m as [| | | | | |d]; try (cbn in H; discriminate).
  rewrite id_of_record_dict in H. cbn [rbind] in H.
  destruct (comprehension id_of_record l) as [ids'|]; [|discriminate].
  constructor; [by eexists|]. by eapply IH.
Qed.

Lemma comprehension_raise {B : Type} (f : PyVal -> Result (option B))
  (l : list PyVal) (e : PyExc) :
  (forall m e', f m = Raise e' -> e' = AttributeError m "get") ->
  comprehension f l = Raise e ->
  exists m, m ∈ l /\ e = AttributeError m "get".
Proof.
  intros Hf. induction l as [|m l IH]; [discriminate|].
  cbn [comprehension]. destruct (f m) as [o|e'] eqn:Hm; cbn [rbind].
  - destruct (comprehension f l) as [r|e'']; [discriminate|].
    cbn [rbind]. intros H. injection H as ->.
    destruct IH as (m' & Hin & ->); [done|].
    exists m'. split; [by right|done].
  - intros H. injection H as ->. exists m. split; [by left|by apply Hf].
Qed.

Lemma id_of_record_raise (m : PyVal) (e : PyExc) :
  id_of_record m = Raise e -> e = AttributeError m "get".
Proof.
  destruct m; try (cbn; intros H; by injection H).
  rewrite id_of_record_dict. discriminate.
Qed.

Lemma simplify_record_raise (m : PyVal) (e : PyExc) :
  simplify_record m = Raise e -> e = AttributeError m "get".
Proof.
  destruct m; try (cbn; intros H; by injection H).
  rewrite simplify_record_dict. discriminate.
Qed.

(** The refresh builds a snapshot exactly on the fetch outcomes of
    [handled_response]; otherwise it ends with the [AttributeError] of a
    [get] on a value that is not a JSON object, and the fetch has logged
    nothing. *)
Lemma refresh_result_cases (env : Env) (n : nat) :
  (handled_response env n /\ exists snap, refresh_result env n = Ok snap)
  \/ (~ handled_response env n /\ snd (fetch_result env n) = []
      /\ exists v, refresh_result env n = Raise (AttributeError v "get")).
Proof.
  unfold handled_response, refresh_result, fetch_result.
  destruct (environ_api_key env n) as [[|c key]|];
    [left; split; [done|by eexists]| |left; split; [done|by eexists]].
  destruct (http_get_json env n (String c key)) as [data|e];
    [|left; split; [done|by eexists]].
  destruct data as [| | | | | |d];
    try (right; split; [by intros []|]; split; [done|]; by eexists).
  unfold raw_models_of, py_get, py_get_default. cbn [fst snd rbind].
  destruct (d !! "data") as [[| | | | |l|]|]; cbn [default rbind];
    unfold id; cbn [rbind];
    try (left; split; [done|by eexists]).
  destruct (comprehension id_of_record l) as [ids|e] eqn:Hids; cbn [rbind].
  - pose proof (comprehension_id_ok _ _ Hids) as Hall.
    left. split; [done|].
    destruct (comprehension_dicts simplify_record l) as [simp ->];
      [intros d0; rewrite simplify_record_dict; by eexists|done|].
    by eexists.
  - right. split.
    + intros Hall.
      destruct (comprehension_dicts id_of_record l) as [ids Hids'];
        [intros d0; rewrite id_of_record_dict; by eexists|done|].
      congruence.
    + split; [done|].
      apply comprehension_raise in Hids as (m & _ & ->);
        [by eexists|apply id_of_record_raise].
Qed.

(** X5: an accessor raises exactly when it has to refresh and the fetch
    outcome is none of those the code is prepared for; what it raises is
    then the [AttributeError] of a [get] on a value that is not a JSON
    object (never the [TypeError] of a missing snapshot). *)
Theorem accessor_raises_iff (env : Env) (a : Accessor) (w : World) :
  ((exists e, fst (call env a w) = Raise e)
   <-> stale env w /\ ~ handled_response env (fetch_calls w))
  /\ (forall e, fst (call env a w) = Raise e ->
        exists v, e = AttributeError v "get").
Proof.
  rewrite call_eq, <- expired_b_stale.
  destruct (expired_b env w) eqn:Hexp.
  - destruct (refresh_result_cases env (fetch_calls w))
      as [(Hh & snap & ->)|(Hh & _ & v & ->)]; cbn [fst].
    + split; [|discriminate]. split; [by intros [? ?]|by intros [_ ?]].
    + split; [split; [done|by eexists]|].
      intros e H. injection H as <-. by eexists.
  - unfold expired_b in Hexp. destruct (cache w); [|discriminate]. cbn [fst].
    split; [|discriminate]. split; [by intros [? ?]|by intros [? _]].
Qed.

(** X6: when an accessor raises, the call of the fetch is counted but the
    snapshot and its timestamp are left as they were and no record is
    logged; with no snapshot loaded, the next call has to refresh
    again. *)
Theorem failed_refresh_keeps_cache (env : Env) (a : Accessor) (w : World)
  (e : PyExc) :
  fst (call env a w) = Raise e ->
  cache (snd (call env a w)) = cache w
  /\ cache_updated_at (snd (call env a w)) = cache_updated_at w
  /\ fetch_calls (snd (call env a w)) = S (fetch_calls w)
  /\ emitted w (snd (call env a w)) = []
  /\ (cache w = None -> stale env (snd (call env a w))).
Proof.
  rewrite call_eq. destruct (expired_b env w) eqn:Hexp.
  - destruct (refresh_result_cases env (fetch_calls w))
      as [(_ & snap & ->)|(_ & Hlog & v & ->)]; cbn [fst snd];
      [discriminate|].
    intros _. rewrite Hlog, emitted_mk. repeat split. by left.
  - unfold expired_b in Hexp. destruct (cache w); discriminate.
Qed.

(** X7: a call that finds a snapshot younger than the TTL depends on the
    outside world through that one reading of the clock only: it returns
    the stored snapshot, reads the clock once, and changes nothing else,
    whatever the credential and the endpoint are. *)
Theorem fresh_call_ignores_endpoint (env env' : Env) (a : Accessor)
  (w : World) :
  ~ stale env w ->
  monotonic_clock env' (clock_reads w) = monotonic_clock env (clock_reads w) ->
  call env' a w = call env a w
  /\ exists snap,
       cache w = Some snap
       /\ call env a w
          = (Ok (view a snap),
             mkWorld (cache w) (cache_updated_at w) (fetch_calls w)
                     (S (clock_reads w)) (log w)).
Proof.
  intros Hs Hclock.
  assert (He : expired_b env w = false).
  { destruct (expired_b env w) eqn:E; [|done].
    by apply expired_b_stale in E. }
  assert (He' : expired_b env' w = false).
  { unfold expired_b in *. by rewrite Hclock. }
  rewrite !call_eq, He, He'. split; [done|].
  unfold expired_b in He. unfold checked.
  destruct (cache w) as [snap|]; [|discriminate]. by exists snap.
Qed.

(** X8: the timestamp of a refreshed snapshot is the reading of the clock
    taken after the fetch, the last reading of the call; the call reads
    the clock once when no snapshot existed and twice otherwise. *)
Theorem refresh_timestamp (env : Env) (a : Accessor) (w w' : World)
  (ans : Answer) :
  stale env w ->
  call env a w = (Ok ans, w') ->
  cache_updated_at w' = monotonic_clock env (pred (clock_reads w'))
  /\ clock_reads w'
     = match cache w with
       | None => S (clock_reads w)
       | Some _ => S (S (clock_reads w))
       end.
Proof.
  intros Hs%expired_b_stale. rewrite call_eq, Hs.
  destruct (refresh_result env (fetch_calls w)); [|discriminate].
  intros H. injection H as _ <-. cbn [cache_updated_at clock_reads pred].
  unfold checked. by destruct (cache w).
Qed.

(** X9: a call of an accessor appends at most one record to the log, a
    warning of [fetch_models], and none when it does not refresh. *)
Theorem accessor_log (env : Env) (a : Accessor) (w : World) :
  exists d,
    log (snd (call env a w)) = log w ++ d
    /\ length d <= 1
    /\ Forall cache_record d
    /\ (~ stale env w -> d = []).
Proof.
  rewrite call_eq.
  assert (Hrec : length (snd (fetch_result env (fetch_calls w))) <= 1
                 /\ Forall cache_record (snd (fetch_result env (fetch_calls w)))).
  { unfold fetch_result.
    destruct (environ_api_key env (fetch_calls w)) as [[|c key]|];
      [| destruct (http_get_json env (fetch_calls w) (String c key)) |];
      cbn; (split; [lia|]);
      [apply Forall_singleton; split; [done|by left]
      |constructor
      |apply Forall_singleton; split; [done|right; by eexists]
      |apply Forall_singleton; split; [done|by left]]. }
  destruct (expired_b env w) eqn:Hexp.
  - apply expired_b_stale in Hexp.
    exists (snd (fetch_result env (fetch_calls w))).
    destruct (refresh_result env (fetch_calls w)); cbn [snd log];
      (split; [done|]); (split; [apply Hrec|]);
      (split; [apply Hrec|]); by intros [].
  - exists []. destruct (checked_fields w) as (_ & _ & _ & Hl).
    destruct (cache w); cbn [snd]; rewrite ?Hl, app_nil_r;
      (split; [done|]); (split; [cbn; lia|]); by split.
Qed.

(** ** Further properties of the string operations *)

Lemma lstrip_spec (s : string) :
  exists l, s = l +:+ PyStr.lstrip s /\ PyStr.all_space l = true
            /\ (PyStr.lstrip s = ""
                \/ PyStr.starts_nonspace (PyStr.lstrip s) = true).
Proof.
  induction s as [|c s (l & Hs & Hl & Hd)].
  - exists "". repeat split. by left.
  - cbn [PyStr.lstrip]. destruct (PyStr.isspace c) eqn:Hc.
    + exists (String c l).
      change (String c l +:+ PyStr.lstrip s)
        with (String c (l +:+ PyStr.lstrip s)).
      split; [by rewrite <- Hs|].
      split; [cbn; by rewrite Hc, Hl|done].
    + exists "". repeat split. right. cbn. by rewrite Hc.
Qed.

Lemma rstrip_spec (t : string) :
  exists r, t = PyStr.rstrip t +:+ r /\ PyStr.all_space r = true
            /\ (PyStr.rstrip t = ""
                \/ PyStr.ends_nonspace (PyStr.rstrip t) = true).
Proof.
  induction t as [|c t (r & Ht & Hr & Hd)].
  - exists "". repeat split. by left.
  - rewrite rstrip_cons. destruct (PyStr.rstrip t) as [|c' u] eqn:Hu.
    + change ("" +:+ r) with r in Ht. subst r.
      destruct (PyStr.isspace c) eqn:Hc.
      * exists (String c t). repeat split; [|by left].
        cbn. by rewrite Hc, Hr.
      * exists t. repeat split; [done|]. right. cbn. by rewrite Hc.
    + exists r.
      change (String c (String c' u) +:+ r)
        with (String c (String c' u +:+ r)).
      split; [by rewrite <- Ht|]. split; [done|].
      right. destruct Hd as [?|Hd]; [discriminate|]. exact Hd.
Qed.

Lemma rstrip_keeps_start (c : ascii) (t : string) :
  PyStr.isspace c = false -> exists u, PyStr.rstrip (String c t) = String c u.
Proof.
  intros Hc. rewrite rstrip_cons.
  destruct (PyStr.rstrip t); [rewrite Hc|]; by eexists.
Qed.

Lemma string_app_nil_r (s : string) : s +:+ "" = s.
Proof.
  induction s as [|c s IH]; [done|].
  change (String c s +:+ "") with (String c (s +:+ "")). by rewrite IH.
Qed.

Lemma strip_cut (s : string) :
  exists l r, s = l +:+ PyStr.strip s +:+ r
              /\ PyStr.all_space l = true /\ PyStr.all_space r = true.
Proof.
  destruct (lstrip_spec s) as (l & Hs & Hl & _).
  destruct (rstrip_spec (PyStr.lstrip s)) as (r & Ht & Hr & _).
  fold (PyStr.strip s) in Ht.
  exists l, r. split; [|done]. rewrite Hs at 1. by rewrite Ht at 1.
Qed.

Lemma strip_empty_or_trimmed (s : string) :
  PyStr.strip s = "" \/ PyStr.trimmed (PyStr.strip s) = true.
Proof.
  destruct (lstrip_spec s) as (_ & _ & _ & [He|Hst]).
  - left. unfold PyStr.strip. by rewrite He.
  - destruct (rstrip_spec (PyStr.lstrip s)) as (_ & _ & _ & Hend).
    fold (PyStr.strip s) in Hend.
    right. unfold PyStr.trimmed. apply andb_true_intro.
    destruct (PyStr.lstrip s) as [|c t] eqn:Hls; [discriminate|].
    cbn in Hst. apply negb_true_iff in Hst.
    destruct (rstrip_keeps_start c t Hst) as [u Hu].
    unfold PyStr.strip in *. rewrite Hls in *. rewrite Hu in *.
    split; [cbn; by rewrite Hst|].
    destruct Hend as [?|?]; [discriminate|done].
Qed.

(** X10: [strip] cuts a string into leading whitespace, the result and
    trailing whitespace; the result is empty or neither starts nor ends
    with whitespace, and stripping it again changes nothing. *)
Theorem strip_spec (s : string) :
  (exists l r, s = l +:+ PyStr.strip s +:+ r
               /\ PyStr.all_space l = true /\ PyStr.all_space r = true)
  /\ (PyStr.strip s = "" \/ PyStr.trimmed (PyStr.strip s) = true)
  /\ PyStr.strip (PyStr.strip s) = PyStr.strip s.
Proof.
  split; [apply strip_cut|]. split; [apply strip_empty_or_trimmed|].
  destruct (strip_empty_or_trimmed s) as [->|Htr]; [done|].
  rewrite <- (string_app_nil_r (PyStr.strip s)) at 1.
  by apply (strip_surrounded "" (PyStr.strip s) "").
Qed.

(** ** Further properties of the wire format *)

Lemma model_for_request_eq (s : string) :
  model_for_request s
  = if PyStr.prefix_nocase "openrouter/" s then s else "openrouter/" +:+ s.
Proof.
  unfold model_for_request. rewrite startswith_openrouter.
  by destruct (PyStr.prefix_nocase "openrouter/" s).
Qed.

Lemma model_for_request_tagged (s : string) :
  PyStr.prefix_nocase "openrouter/" (model_for_request s) = true.
Proof.
  rewrite model_for_request_eq.
  destruct (PyStr.prefix_nocase "openrouter/" s) eqn:Hs; [done|].
  apply prefix_nocase_tagged.
Qed.

(** X11: two ids are sent to the provider under the same wire name
    exactly when they are equal or one of them is the other, untagged
    one, with the tag "openrouter/" in front. *)
Theorem model_for_request_collision (s t : string) :
  model_for_request s = model_for_request t
  <-> s = t
      \/ (untagged s /\ t = "openrouter/" +:+ s)
      \/ (untagged t /\ s = "openrouter/" +:+ t).
Proof.
  unfold untagged. rewrite !model_for_request_eq.
  destruct (PyStr.prefix_nocase "openrouter/" s) eqn:Hs,
           (PyStr.prefix_nocase "openrouter/" t) eqn:Ht.
  - split; [by left|]. by intros [?|[[? _]|[? _]]].
  - split; [intros ->; by right; right|].
    intros [->|[[? _]|[_ ?]]]; [congruence|done|done].
  - split; [intros <-; by right; left|].
    intros [->|[[_ ?]|[? _]]]; [congruence|done|done].
  - split.
    + intros H. left. by injection H.
    + intros [->|[[_ ->]|[_ ->]]]; [done| |];
        by rewrite prefix_nocase_tagged in *.
Qed.

(** ** Further properties of the hook *)

(** X12: a model id read from the state comes from a string stored under
    "selectedModel", is that string stripped, and is neither empty nor
    bordered by whitespace. *)
Theorem read_selected_trimmed (ctx : CallbackContext) (s : string) :
  _read_selected_model_from_state ctx = Some s ->
  PyStr.trimmed s = true
  /\ exists raw, state ctx !! SELECTED_MODEL_STATE_KEY = Some (PStr raw)
                 /\ s = PyStr.strip raw.
Proof.
  unfold _read_selected_model_from_state.
  destruct (state ctx !! SELECTED_MODEL_STATE_KEY) as [[| | | |raw| |]|];
    try discriminate.
  destruct (PyStr.truthy (PyStr.strip raw)) eqn:Ht; [|discriminate].
  intros H. injection H as <-. split; [|by exists raw].
  destruct (strip_empty_or_trimmed raw) as [He|Htr]; [|done].
  by rewrite He in Ht.
Qed.

(** X13: whenever the hook returns, it has left the contents of the
    request alone, and the request's model is either what it was or the
    wire form of the id read from the state, a string that starts with
    "openrouter/" up to case. *)
Theorem hook_model_unchanged_or_tagged (env : Env) (ctx : CallbackContext)
  (req req' : LlmRequest) (w w' : World) :
  before_model env ctx req w = (Ok req', w') ->
  contents req' = contents req
  /\ (req' = req
      \/ exists s, _read_selected_model_from_state ctx = Some s
                   /\ model req' = ModelStr (model_for_request s)
                   /\ PyStr.prefix_nocase "openrouter/" (model_for_request s)
                      = true).
Proof.
  destruct (_read_selected_model_from_state ctx) as [s|] eqn:Hread.
  - destruct (get_cached_model_ids env w) as [[ids|e] w1] eqn:Hids.
    + rewrite (before_model_selected _ _ _ _ _ _ _ Hread Hids).
      intros H. injection H as <- _. unfold selection_outcome.
      destruct (is_allowed_value s ids); [|by split; [|left]].
      destruct (setattr_raises env req (model_for_request s));
        [by split; [|left]|].
      split; [done|]. right. exists s.
      split; [done|]. split; [done|apply model_for_request_tagged].
    + by rewrite (before_model_cache_raises _ _ _ _ _ _ _ Hread Hids).
  - rewrite (before_model_no_selection _ _ _ _ Hread).
    intros H. injection H as <- _. by split; [|left].
Qed.

(** X14: the hook raises exactly when the state holds a usable model id
    and [get_cached_model_ids] raises; it then raises that exception. *)
Theorem hook_raises_iff_cache_raises (env : Env) (ctx : CallbackContext)
  (req : LlmRequest) (w : World) (e : PyExc) :
  fst (before_model env ctx req w) = Raise e
  <-> is_Some (_read_selected_model_from_state ctx)
      /\ fst (get_cached_model_ids env w) = Raise e.
Proof.
  destruct (_read_selected_model_from_state ctx) as [s|] eqn:Hread.
  - destruct (get_cached_model_ids env w) as [[ids|e'] w1] eqn:Hids.
    + rewrite (before_model_selected _ _ _ _ _ _ _ Hread Hids). cbn [fst].
      split; [discriminate|by intros [_ ?]].
    + rewrite (before_model_cache_raises _ _ _ _ _ _ _ Hread Hids).
      cbn [fst].
      split; [intros H; injection H as ->; split; [by eexists|done]|].
      intros [_ H]. by injection H as ->.
  - rewrite (before_model_no_selection _ _ _ _ Hread). cbn [fst].
    split; [discriminate|]. by intros [[? ?] _].
Qed.

(** X15: apart from the log, the hook changes the world exactly as one
    call of [get_cached_model_ids] does when the state holds a usable
    model id, and not at all otherwise; the log only grows. *)
Theorem hook_cache_effect (env : Env) (ctx : CallbackContext)
  (req : LlmRequest) (w : World) :
  same_cache_state
    (match _read_selected_model_from_state ctx with
     | Some _ => snd (get_cached_model_ids env w)
     | None => w
     end)
    (snd (before_model env ctx req w))
  /\ exists d, log (snd (before_model env ctx req w)) = log w ++ d.
Proof.
  unfold same_cache_state.
  destruct (_read_selected_model_from_state ctx) as [s|] eqn:Hread.
  - destruct (get_cached_model_ids env w) as [[ids|e] w1] eqn:Hids.
    + rewrite (before_model_selected _ _ _ _ _ _ _ Hread Hids).
      split; [done|]. by eexists.
    + rewrite (before_model_cache_raises _ _ _ _ _ _ _ Hread Hids).
      split; [done|]. by eexists.
  - rewrite (before_model_no_selection _ _ _ _ Hread).
    split; [done|]. by eexists.
Qed.

(** X16: the record "Model list unavailable; allowing provider-prefixed
    model" is emitted exactly when the allow-list is empty and the id
    contains "/". *)
Theorem list_unavailable_record (env : Env) (ctx : CallbackContext)
  (req : LlmRequest) (w w1 : World) (s : string) (ids : gset string) :
  _read_selected_model_from_state ctx = Some s ->
  get_cached_model_ids env w = (Ok ids, w1) ->
  mkLog INFO (MsgListUnavailable s)
    ∈ emitted w (snd (before_model env ctx req w))
  <-> ids = ∅ /\ PyStr.has_char "/"%char s.
Proof.
  intros Hread Hids.
  rewrite (before_model_selected _ _ _ _ _ _ _ Hread Hids). cbn [snd].
  destruct (log_blind_run _ _ _ _ _ (log_blind_get_cached_model_ids env) Hids)
    as (d & Hd & HP & _).
  rewrite (emitted_app w (set_log _ w1) _ eq_refl), (emitted_app _ _ _ Hd).
  rewrite selection_record_emitted; [|done..].
  unfold selection_outcome.
  destruct (is_allowed_value s ids) eqn:Hv.
  - apply is_allowed_value_true in Hv.
    destruct (bool_decide (s ∈ ids)) eqn:Hin.
    + apply bool_decide_eq_true in Hin.
      assert (Hne : ids <> ∅) by (intros ->; by apply not_elem_of_empty in Hin).
      destruct (setattr_raises env req (model_for_request s)); cbn [snd app];
        rewrite !elem_of_cons, elem_of_nil; split;
        (intros [?|[?|[]]] || intros [? _]); done.
    + apply bool_decide_eq_false in Hin.
      destruct Hv as [?|Hv]; [done|].
      destruct (setattr_raises env req (model_for_request s)); cbn [snd app];
        rewrite !elem_of_cons; (split; intros _; [done|by left]).
  - assert (Hnot : ~ (ids = ∅ /\ PyStr.has_char "/"%char s)).
    { intros H. assert (is_allowed_value s ids = true)
        by (apply is_allowed_value_true; by right). congruence. }
    cbn [snd]. rewrite elem_of_cons, elem_of_nil.
    split; [intros [?|[]]; done|done].
Qed.

(** X17: without a credential the allow-list is empty, so a hook that
    has to refresh the cache applies every model id that contains "/"
    unchecked and refuses every other id. *)
Theorem no_credential_hook_permissive (env : Env) (ctx : CallbackContext)
  (req : LlmRequest) (w : World) (s : string) :
  stale env w ->
  environ_api_key env (fetch_calls w) = None
  \/ environ_api_key env (fetch_calls w) = Some "" ->
  _read_selected_model_from_state ctx = Some s ->
  setattr_raises env req (model_for_request s) = None ->
  fst (before_model env ctx req w)
  = Ok (if PyStr.contains "/" s
        then mkRequest (ModelStr (model_for_request s)) (contents req)
        else req).
Proof.
  intros Hs%expired_b_stale Hkey Hread Hset.
  assert (Hf : fetch_result env (fetch_calls w)
               = (Ok [], [mkLog WARNING MsgNoApiKey])).
  { unfold fetch_result. by destruct Hkey as [-> | ->]. }
  destruct (get_cached_model_ids env w) as [r w1] eqn:Hids.
  assert (Hr : r = Ok ∅).
  { unfold get_cached_model_ids in Hids. rewrite accessor_eq, Hs in Hids.
    unfold refresh_result in Hids. rewrite Hf in Hids. cbn in Hids.
    by injection Hids as <- _. }
  subst r. rewrite (before_model_selected _ _ _ _ _ _ _ Hread Hids).
  cbn [fst]. unfold selection_outcome, is_allowed_value.
  rewrite bool_decide_eq_false_2 by apply not_elem_of_empty.
  rewrite bool_decide_eq_true_2 by done. cbn [orb andb].
  destruct (PyStr.contains "/" s); [by rewrite Hset|done].
Qed.

(** X18: callers served one after the other while the snapshot is
    younger than the TTL all receive that snapshot; none of them fetches
    or logs, and each reads the clock once. *)
Theorem calls_within_ttl (env : Env) (l : list Accessor) (w : World)
  (snap : Snapshot) :
  cache w = Some snap ->
  (forall k, k < length l ->
     within_ttl (monotonic_clock env (clock_reads w + k))
                (cache_updated_at w)) ->
  run_calls env l w
  = ((fun a => Ok (view a snap)) <$> l,
     mkWorld (cache w) (cache_updated_at w) (fetch_calls w)
             (clock_reads w + length l) (log w)).
Proof.
  revert w. induction l as [|a l IH]; intros w Hc Hage.
  - cbn. rewrite Nat.add_0_r. by destruct w.
  - cbn [run_calls]. rewrite call_eq.
    assert (He : expired_b env w = false).
    { unfold expired_b. rewrite Hc.
      specialize (Hage 0). rewrite Nat.add_0_r in Hage.
      apply Hage. cbn. lia. }
    rewrite He, Hc. unfold checked. rewrite Hc.
    rewrite IH; cbn [cache cache_updated_at fetch_calls clock_reads log].
    + cbn [fmap list_fmap length]. by rewrite Nat.add_succ_r.
    + done.
    + intros k Hk. rewrite Nat.add_succ_l, <- Nat.add_succ_r.
      apply Hage. cbn. lia.
Qed.

(** ** The further properties at sample inputs *)

Lemma no_credential_empty_result_witness :
  stale env_no_key initial_world
  /\ (environ_api_key env_no_key (fetch_calls initial_world) = None
      \/ environ_api_key env_no_key (fetch_calls initial_world) = Some "")
  /\ exists w',
       call env_no_key GetIds initial_world
       = (Ok (view GetIds empty_snapshot), w')
       /\ cache w' = Some empty_snapshot
       /\ emitted initial_world w' = [mkLog WARNING MsgNoApiKey]
       /\ fetch_calls w' = S (fetch_calls initial_world).
Proof.
  assert (Hs : stale env_no_key initial_world) by (left; reflexivity).
  assert (Hk : environ_api_key env_no_key (fetch_calls initial_world) = None
               \/ environ_api_key env_no_key (fetch_calls initial_world)
                  = Some "") by (left; reflexivity).
  split; [exact Hs|]. split; [exact Hk|].
  exact (no_credential_empty_result env_no_key GetIds initial_world Hs Hk).
Defined.

Lemma transport_error_empty_result_witness :
  stale env_unreachable initial_world
  /\ environ_api_key env_unreachable (fetch_calls initial_world)
     = Some "sk-test"
  /\ "sk-test" <> ""
  /\ http_get_json env_unreachable (fetch_calls initial_world) "sk-test"
     = Raise (mkExc "URLError" "unreachable")
  /\ exists w',
       call env_unreachable GetModels initial_world
       = (Ok (view GetModels empty_snapshot), w')
       /\ cache w' = Some empty_snapshot
       /\ emitted initial_world w'
          = [mkLog WARNING (MsgFetchFailed (mkExc "URLError" "unreachable"))]
       /\ fetch_calls w' = S (fetch_calls initial_world).
Proof.
  assert (Hs : stale env_unreachable initial_world) by (left; reflexivity).
  assert (Hne : "sk-test" <> "") by discriminate.
  split; [exact Hs|]. split; [reflexivity|]. split; [exact Hne|].
  split; [reflexivity|].
  exact (transport_error_empty_result env_unreachable GetModels initial_world
           "sk-test" (mkExc "URLError" "unreachable")
           Hs eq_refl Hne eq_refl).
Defined.

Lemma missing_data_list_silent_witness :
  stale env_no_data initial_world
  /\ environ_api_key env_no_data (fetch_calls initial_world) = Some "sk-test"
  /\ "sk-test" <> ""
  /\ http_get_json env_no_data (fetch_calls initial_world) "sk-test"
     = Ok (PDict {[ "error" := PStr "denied" ]})
  /\ (forall l, ({[ "error" := PStr "denied" ]} : gmap string PyVal) !! "data"
                <> Some (PList l))
  /\ exists w',
       call env_no_data GetIds initial_world
       = (Ok (view GetIds empty_snapshot), w')
       /\ cache w' = Some empty_snapshot
       /\ emitted initial_world w' = []
       /\ fetch_calls w' = S (fetch_calls initial_world).
Proof.
  assert (Hs : stale env_no_data initial_world) by (left; reflexivity).
  assert (Hne : "sk-test" <> "") by discriminate.
  assert (Hd : forall l,
            ({[ "error" := PStr "denied" ]} : gmap string PyVal) !! "data"
            <> Some (PList l)) by (intros l; vm_compute; discriminate).
  split; [exact Hs|]. split; [reflexivity|]. split; [exact Hne|].
  split; [reflexivity|]. split; [exact Hd|].
  exact (missing_data_list_silent env_no_data GetIds initial_world
           "sk-test" {[ "error" := PStr "denied" ]}
           Hs eq_refl Hne eq_refl Hd).
Defined.

Lemma world_expired_stale : stale env_catalog world_expired.
Proof. right. vm_compute. reflexivity. Qed.

Lemma catalog_snapshot_witness :
  stale env_catalog world_expired
  /\ environ_api_key env_catalog (fetch_calls world_expired) = Some "sk-test"
  /\ "sk-test" <> ""
  /\ http_get_json env_catalog (fetch_calls world_expired) "sk-test"
     = Ok (PDict sample_doc)
  /\ sample_doc !! "data" = Some (PList (PDict <$> sample_records))
  /\ exists w',
       call env_catalog GetModels world_expired
       = (Ok (view GetModels sample_snapshot), w')
       /\ cache w' = Some sample_snapshot
       /\ emitted world_expired w' = []
       /\ fetch_calls w' = S (fetch_calls world_expired).
Proof.
  assert (Hne : "sk-test" <> "") by discriminate.
  assert (Hh : http_get_json env_catalog (fetch_calls world_expired) "sk-test"
               = Ok (PDict sample_doc)) by (vm_compute; reflexivity).
  assert (Hd : sample_doc !! "data" = Some (PList (PDict <$> sample_records)))
    by (vm_compute; reflexivity).
  split; [exact world_expired_stale|]. split; [reflexivity|].
  split; [exact Hne|]. split; [exact Hh|]. split; [exact Hd|].
  exact (catalog_snapshot env_catalog GetModels world_expired
           "sk-test" sample_doc sample_records
           world_expired_stale eq_refl Hne Hh Hd).
Defined.

Example sample_snapshot_listing :
  snap_models sample_snapshot
  = [mkUiModel (PStr "vendor/model-x") (PStr "X") (PInt 8192);
     mkUiModel (PStr "foo") (PStr "foo") PNone].
Proof. vm_compute. reflexivity. Qed.

Lemma failed_refresh_keeps_cache_witness :
  fst (call env_array_document GetIds initial_world)
  = Raise (AttributeError (PList []) "get")
  /\ cache (snd (call env_array_document GetIds initial_world))
     = cache initial_world
  /\ cache_updated_at (snd (call env_array_document GetIds initial_world))
     = cache_updated_at initial_world
  /\ fetch_calls (snd (call env_array_document GetIds initial_world))
     = S (fetch_calls initial_world)
  /\ emitted initial_world (snd (call env_array_document GetIds initial_world))
     = []
  /\ (cache initial_world = None ->
      stale env_array_document
            (snd (call env_array_document GetIds initial_world))).
Proof.
  assert (H : fst (call env_array_document GetIds initial_world)
              = Raise (AttributeError (PList []) "get"))
    by (vm_compute; reflexivity).
  split; [exact H|].
  exact (failed_refresh_keeps_cache env_array_document GetIds initial_world
           (AttributeError (PList []) "get") H).
Defined.

Lemma world_catalog_fresh : ~ stale env_catalog world_catalog.
Proof.
  intros [H|H]; vm_compute in H; discriminate.
Qed.

Lemma fresh_call_ignores_endpoint_witness :
  ~ stale env_catalog world_catalog
  /\ monotonic_clock env_no_key (clock_reads world_catalog)
     = monotonic_clock env_catalog (clock_reads world_catalog)
  /\ call env_no_key GetIds world_catalog = call env_catalog GetIds world_catalog
  /\ exists snap,
       cache world_catalog = Some snap
       /\ call env_catalog GetIds world_catalog
          = (Ok (view GetIds snap),
             mkWorld (cache world_catalog) (cache_updated_at world_catalog)
                     (fetch_calls world_catalog)
                     (S (clock_reads world_catalog)) (log world_catalog)).
Proof.
  split; [exact world_catalog_fresh|]. split; [reflexivity|].
  exact (fresh_call_ignores_endpoint env_catalog env_no_key GetIds
           world_catalog world_catalog_fresh eq_refl).
Defined.

Lemma refresh_timestamp_witness :
  stale env_catalog world_expired
  /\ call env_catalog GetIds world_expired
     = (Ok (AnsIds sample_ids), snd (call env_catalog GetIds world_expired))
  /\ cache_updated_at (snd (call env_catalog GetIds world_expired))
     = monotonic_clock env_catalog
         (pred (clock_reads (snd (call env_catalog GetIds world_expired))))
  /\ clock_reads (snd (call env_catalog GetIds world_expired))
     = match cache world_expired with
       | None => S (clock_reads world_expired)
       | Some _ => S (S (clock_reads world_expired))
       end.
Proof.
  assert (H : call env_catalog GetIds world_expired
              = (Ok (AnsIds sample_ids),
                 snd (call env_catalog GetIds world_expired)))
    by (vm_compute; reflexivity).
  split; [exact world_expired_stale|]. split; [exact H|].
  exact (refresh_timestamp env_catalog GetIds world_expired _
           (AnsIds sample_ids) world_expired_stale H).
Defined.

Lemma read_selected_trimmed_witness :
  _read_selected_model_from_state (sample_context (Some (PStr "  foo  ")))
  = Some "foo"
  /\ PyStr.trimmed "foo" = true
  /\ exists raw,
       state (sample_context (Some (PStr "  foo  "))) !! SELECTED_MODEL_STATE_KEY
       = Some (PStr raw)
       /\ "foo" = PyStr.strip raw.
Proof.
  split; [reflexivity|].
  exact (read_selected_trimmed (sample_context (Some (PStr "  foo  ")))
           "foo" eq_refl).
Defined.

Lemma hook_model_unchanged_or_tagged_witness :
  before_model env_catalog (sample_context (Some (PStr "foo")))
    sample_request initial_world
  = (Ok (mkRequest (ModelStr "openrouter/foo") (contents sample_request)),
     snd (before_model env_catalog (sample_context (Some (PStr "foo")))
            sample_request initial_world))
  /\ contents (mkRequest (ModelStr "openrouter/foo") (contents sample_request))
     = contents sample_request
  /\ (mkRequest (ModelStr "openrouter/foo") (contents sample_request)
      = sample_request
      \/ exists s,
           _read_selected_model_from_state (sample_context (Some (PStr "foo")))
           = Some s
           /\ model (mkRequest (ModelStr "openrouter/foo")
                               (contents sample_request))
              = ModelStr (model_for_request s)
           /\ PyStr.prefix_nocase "openrouter/" (model_for_request s) = true).
Proof.
  assert (H : before_model env_catalog (sample_context (Some (PStr "foo")))
                sample_request initial_world
              = (Ok (mkRequest (ModelStr "openrouter/foo")
                               (contents sample_request)),
                 snd (before_model env_catalog
                        (sample_context (Some (PStr "foo")))
                        sample_request initial_world)))
    by (vm_compute; reflexivity).
  split; [exact H|].
  exact (hook_model_unchanged_or_tagged env_catalog
           (sample_context (Some (PStr "foo"))) sample_request _
           initial_world _ H).
Defined.

Lemma list_unavailable_record_witness :
  _read_selected_model_from_state
    (sample_context (Some (PStr "vendor/model-x"))) = Some "vendor/model-x"
  /\ get_cached_model_ids env_no_key initial_world = (Ok ∅, world_no_key)
  /\ (mkLog INFO (MsgListUnavailable "vendor/model-x")
        ∈ emitted initial_world
            (snd (before_model env_no_key
                    (sample_context (Some (PStr "vendor/model-x")))
                    sample_request initial_world))
      <-> (∅ : gset string) = ∅ /\ PyStr.has_char "/"%char "vendor/model-x").
Proof.
  split; [reflexivity|]. split; [reflexivity|].
  exact (list_unavailable_record env_no_key
           (sample_context (Some (PStr "vendor/model-x"))) sample_request
           initial_world world_no_key "vendor/model-x" ∅ eq_refl eq_refl).
Defined.

Lemma no_credential_hook_permissive_witness :
  stale env_no_key initial_world
  /\ (environ_api_key env_no_key (fetch_calls initial_world) = None
      \/ environ_api_key env_no_key (fetch_calls initial_world) = Some "")
  /\ _read_selected_model_from_state
       (sample_context (Some (PStr "vendor/model-x"))) = Some "vendor/model-x"
  /\ setattr_raises env_no_key sample_request
       (model_for_request "vendor/model-x") = None
  /\ fst (before_model env_no_key
            (sample_context (Some (PStr "vendor/model-x")))
            sample_request initial_world)
     = Ok (if PyStr.contains "/" "vendor/model-x"
           then mkRequest (ModelStr (model_for_request "vendor/model-x"))
                          (contents sample_request)
           else sample_request).
Proof.
  assert (Hs : stale env_no_key initial_world) by (left; reflexivity).
  assert (Hk : environ_api_key env_no_key (fetch_calls initial_world) = None
               \/ environ_api_key env_no_key (fetch_calls initial_world)
                  = Some "") by (left; reflexivity).
  split; [exact Hs|]. split; [exact Hk|]. split; [reflexivity|].
  split; [reflexivity|].
  exact (no_credential_hook_permissive env_no_key
           (sample_context (Some (PStr "vendor/model-x"))) sample_request
           initial_world "vendor/model-x" Hs Hk eq_refl eq_refl).
Defined.

Lemma calls_within_ttl_witness :
  cache world_catalog = Some sample_snapshot
  /\ (forall k, k < length [GetIds; GetModels; GetIds] ->
        within_ttl (monotonic_clock env_catalog (clock_reads world_catalog + k))
                   (cache_updated_at world_catalog))
  /\ run_calls env_catalog [GetIds; GetModels; GetIds] world_catalog
     = ((fun a => Ok (view a sample_snapshot))
          <$> [GetIds; GetModels; GetIds],
        mkWorld (cache world_catalog) (cache_updated_at world_catalog)
                (fetch_calls world_catalog)
                (clock_reads world_catalog
                 + length [GetIds; GetModels; GetIds])
                (log world_catalog)).
Proof.
  assert (Hc : cache world_catalog = Some sample_snapshot)
    by (vm_compute; reflexivity).
  assert (Ha : forall k, k < length [GetIds; GetModels; GetIds] ->
            within_ttl
              (monotonic_clock env_catalog (clock_reads world_catalog + k))
              (cache_updated_at world_catalog)).
  { intros k Hk. destruct k as [|[|[|k]]];
      [vm_compute; reflexivity..|cbn in Hk; lia]. }
  split; [exact Hc|]. split; [exact Ha|].
  exact (calls_within_ttl env_catalog [GetIds; GetModels; GetIds]
           world_catalog sample_snapshot Hc Ha).
Defined.
